(** * CSNePS Robotics Inference: the Python bridge client

    A shallow embedding of [src/python-bridge/csri_client.py] (v0.1.0) and
    the properties of its connection life cycle, observation submission,
    belief queries and justification retrieval.

    The client is a Python object whose coroutines mutate [self._connected],
    log, await [asyncio.sleep] (the v0.1.0 stand-in for the gRPC round trip),
    read the clock and may raise.  The embedding is a state-and-exception
    monad over the client object and an effect log, run against an
    environment that decides what each awaited call and each clock reading
    yields.  One task is modelled: no other coroutine runs at an await. *)

From Stdlib Require Import String Ascii List ZArith Lia Bool DecimalString.
From ExtLib Require Import Structures.Monad Structures.MonadExc.
Import ListNotations.
Import MonadNotation.

Local Open Scope string_scope.
Local Open Scope Z_scope.
Local Open Scope monad_scope.

(** ** Python values used by the client *)

(** [str(n)] for an [int]. *)
Definition str_of_int (n : Z) : string := NilZero.string_of_int (Z.to_int n).

(** A [float] only ever enters the client as a constant or a caller's field
    and is never computed with: it is carried by its [repr], the text
    [json.dumps] writes for it. *)
Record float := FloatLit { float_repr : string }.

(** A [datetime]; only stored, never inspected. *)
Definition datetime := Z.

(** [needle in hay] on [str]. *)
Fixpoint contains (needle hay : string) : bool :=
  String.prefix needle hay
  || match hay with
     | EmptyString => false
     | String _ hay' => contains needle hay'
     end.

(** [l[:stop]] on a list: a negative [stop] counts from the end and is
    clipped at 0, a [stop] past the end is clipped at [len(l)]. *)
Definition slice_to {A : Type} (l : list A) (stop : Z) : list A :=
  if stop <? 0
  then firstn (Z.to_nat (Z.max 0 (Z.of_nat (length l) + stop))) l
  else firstn (Z.to_nat stop) l.

(** ** Exceptions *)

(** An exception object: its class name, whether the class derives from
    [Exception] (so that [except Exception] catches it; [CancelledError],
    [KeyboardInterrupt] and [SystemExit] derive from [BaseException] only),
    and [str(e)]. *)
Record exn := mk_exn {
  exn_class : string;
  isinstance_Exception : bool;
  exn_str : string
}.

Definition ValueError (msg : string) : exn := mk_exn "ValueError" true msg.

(** ** The data classes *)

Module ObservationType.

Inductive t := LOOP_CLOSURE | APPEARANCE_MATCH | GNC_EVENT | MEDICAL_FINDING.

Definition value (x : t) : string :=
  match x with
  | LOOP_CLOSURE => "loop_closure"
  | APPEARANCE_MATCH => "appearance_match"
  | GNC_EVENT => "gnc_event"
  | MEDICAL_FINDING => "medical_finding"
  end.

End ObservationType.

Record LoopClosure := {
  lc_landmark_id : string;
  lc_score : float;
  lc_method : string;
  lc_pose_estimate : list float;
  lc_timestamp : option datetime
}.

Record AppearanceMatch := {
  am_landmark_id : string;
  am_consistency : string;
  am_score : float;
  am_timestamp : option datetime
}.

Record GNCEvent := {
  gnc_event_type : string;
  gnc_mode : string;
  gnc_severity : float;
  gnc_parameters : list (string * float);
  gnc_timestamp : option datetime
}.

Record MedicalFinding := {
  mf_patient_id : string;
  mf_finding_type : string;
  mf_confidence : float;
  mf_location : string;
  mf_size_mm : float;
  mf_modality : string;
  mf_timestamp : option datetime
}.

(** The four [__post_init__] methods are the same statement:
    [if self.timestamp is None: self.timestamp = datetime.now()]. *)
Definition post_init_timestamp (timestamp : option datetime) (now : datetime)
  : option datetime :=
  match timestamp with
  | None => Some now
  | Some t => Some t
  end.

Record ObservationResponse := {
  success : bool;
  message : string;
  observation_id : option string;
  triggered_rules : option (list string)
}.

(** [ObservationResponse.__post_init__]. *)
Definition ObservationResponse_post_init (r : ObservationResponse)
  : ObservationResponse :=
  match triggered_rules r with
  | None =>
      {| success := success r; message := message r;
         observation_id := observation_id r; triggered_rules := Some [] |}
  | Some _ => r
  end.

(** The generated [__init__] with its two defaulted keyword arguments,
    followed by [__post_init__]. *)
Definition new_ObservationResponse (success : bool) (message : string)
    (observation_id : option string) (triggered_rules : option (list string))
  : ObservationResponse :=
  ObservationResponse_post_init
    {| success := success; message := message;
       observation_id := observation_id; triggered_rules := triggered_rules |}.

Record BeliefInfo := {
  belief_id : string;
  belief_type : string;
  content : string;
  confidence : float;
  created_at : datetime
}.

Record BeliefQuery := {
  concept : string;
  limit : Z;
  include_justification : bool
}.

Record BeliefResponse := {
  beliefs : list BeliefInfo;
  br_success : bool;
  br_message : string
}.

Record JustificationQuery := {
  jq_belief_id : string;
  max_depth : Z
}.

Record JustificationResponse := {
  justification_tree : string;
  jr_success : bool;
  jr_message : string
}.

(** ** [json.dumps] and [json.loads]

    The client serialises dictionaries of strings, numbers and lists of
    strings with [json.dumps], default [ensure_ascii=True]; its tests and
    the demo read the payloads back with [json.loads].  A [str] is modelled
    by its code points below 256, one [ascii] each; a [dict] keeps
    insertion order, so it is an association list. *)

#[local] Set Warnings "-register-all".

Inductive json :=
| JNull
| JBool (b : bool)
| JStr (s : string)
| JInt (n : Z)
| JFloat (f : float)
| JList (items : list json)
| JDict (items : list (string * json)).

Definition dquote : ascii := "034"%char.
Definition backslash : ascii := "092"%char.
Definition newline : ascii := "010"%char.

Definition hex_digit (n : nat) : ascii :=
  nth n ["0"; "1"; "2"; "3"; "4"; "5"; "6"; "7";
         "8"; "9"; "a"; "b"; "c"; "d"; "e"; "f"]%char "0"%char.

(** One match of [ESCAPE_ASCII] (a backslash, a double quote, or anything
    outside space..tilde) replaced through [ESCAPE_DCT], or by the
    four-digit u-escape when the table has no entry; any other character
    stands for itself. *)
Definition escape_char (c : ascii) : string :=
  let n := nat_of_ascii c in
  if (n =? 34)%nat then String backslash (String dquote "")
  else if (n =? 92)%nat then String backslash (String backslash "")
  else if (n =? 8)%nat then String backslash "b"
  else if (n =? 12)%nat then String backslash "f"
  else if (n =? 10)%nat then String backslash "n"
  else if (n =? 13)%nat then String backslash "r"
  else if (n =? 9)%nat then String backslash "t"
  else if ((32 <=? n) && (n <=? 126))%nat then String c ""
  else String backslash
         ("u00" ++ String (hex_digit (n / 16)) (String (hex_digit (n mod 16)) "")).

Fixpoint escape_ascii (s : string) : string :=
  match s with
  | EmptyString => ""
  | String c s' => escape_char c ++ escape_ascii s'
  end.

(** [py_encode_basestring_ascii]. *)
Definition encode_basestring_ascii (s : string) : string :=
  String dquote (escape_ascii s ++ String dquote "").

Fixpoint spaces (n : nat) : string :=
  match n with
  | O => ""
  | S n' => String " " (spaces n')
  end.

(** ['\n' + _indent * _current_indent_level], empty without [indent]. *)
Definition newline_indent (indent : option nat) (level : nat) : string :=
  match indent with
  | None => ""
  | Some k => String newline (spaces (k * level))
  end.

(** The default separators: [(', ', ': ')] without [indent], [(',', ': ')]
    with it, the item separator followed by the new line's indentation. *)
Definition item_separator (indent : option nat) (level : nat) : string :=
  match indent with
  | None => ", "
  | Some _ => "," ++ newline_indent indent level
  end.

Definition key_separator : string := ": ".

Fixpoint iterencode (indent : option nat) (level : nat) (o : json) : string :=
  match o with
  | JNull => "null"
  | JBool true => "true"
  | JBool false => "false"
  | JStr s => encode_basestring_ascii s
  | JInt n => str_of_int n
  | JFloat f => float_repr f
  | JList [] => "[]"
  | JList items =>
      "[" ++ newline_indent indent (S level)
      ++ String.concat (item_separator indent (S level))
           (map (iterencode indent (S level)) items)
      ++ newline_indent indent level ++ "]"
  | JDict [] => "{}"
  | JDict items =>
      "{" ++ newline_indent indent (S level)
      ++ String.concat (item_separator indent (S level))
           (map (fun kv => encode_basestring_ascii (fst kv) ++ key_separator
                           ++ iterencode indent (S level) (snd kv)) items)
      ++ newline_indent indent level ++ "}"
  end.

(** [json.dumps(o)] is [json_dumps None o]; [json.dumps(o, indent=2)] is
    [json_dumps (Some 2) o]. *)
Definition json_dumps (indent : option nat) (o : json) : string :=
  iterencode indent 0 o.

(** [d[key]] on a dictionary literal. *)
Fixpoint dict_get (key : string) (items : list (string * json)) : option json :=
  match items with
  | [] => None
  | (k, v) :: items' => if String.eqb k key then Some v else dict_get key items'
  end.

(** [dict(pairs)]: a key met again keeps its place and takes the new
    value. *)
Fixpoint dict_set (key : string) (v : json) (items : list (string * json))
  : list (string * json) :=
  match items with
  | [] => [(key, v)]
  | (k, v') :: items' =>
      if String.eqb k key then (k, v) :: items'
      else (k, v') :: dict_set key v items'
  end.

Definition dict_of_pairs (pairs : list (string * json)) : list (string * json) :=
  fold_left (fun d kv => dict_set (fst kv) (snd kv) d) pairs [].

(** The decoder, for documents within the model: strings whose escapes
    denote code points below 256, and no [NaN] or [Infinity] literal.
    [None] stands for [JSONDecodeError] and for a document outside the
    model.  A float is read back as the literal that denotes it. *)

Definition is_whitespace (c : ascii) : bool :=
  let n := nat_of_ascii c in
  ((n =? 32) || (n =? 9) || (n =? 10) || (n =? 13))%nat.

Fixpoint skip_whitespace (s : string) : string :=
  match s with
  | String c s' => if is_whitespace c then skip_whitespace s' else s
  | EmptyString => s
  end.

Definition is_digit (c : ascii) : bool :=
  ((48 <=? nat_of_ascii c) && (nat_of_ascii c <=? 57))%nat.

Definition hex_value (c : ascii) : option nat :=
  let n := nat_of_ascii c in
  if ((48 <=? n) && (n <=? 57))%nat then Some (n - 48)%nat
  else if ((97 <=? n) && (n <=? 102))%nat then Some (n - 87)%nat
  else if ((65 <=? n) && (n <=? 70))%nat then Some (n - 55)%nat
  else None.

(** The [BACKSLASH] table of the decoder. *)
Definition unescape (esc : ascii) : option ascii :=
  let n := nat_of_ascii esc in
  if (n =? 34)%nat then Some dquote
  else if (n =? 92)%nat then Some backslash
  else if (n =? 47)%nat then Some "/"%char
  else if (n =? 98)%nat then Some "008"%char
  else if (n =? 102)%nat then Some "012"%char
  else if (n =? 110)%nat then Some "010"%char
  else if (n =? 114)%nat then Some "013"%char
  else if (n =? 116)%nat then Some "009"%char
  else None.

Definition cons_char (c : ascii) (r : option (string * string))
  : option (string * string) :=
  match r with
  | Some (s, rest) => Some (String c s, rest)
  | None => None
  end.

(** [py_scanstring], strict, from just after the opening quote: the string
    and what follows its closing quote. *)
Fixpoint scanstring (s : string) : option (string * string) :=
  match s with
  | EmptyString => None
  | String c s' =>
      if Ascii.eqb c dquote then Some ("", s')
      else if Ascii.eqb c backslash then
        match s' with
        | EmptyString => None
        | String esc s'' =>
            if Ascii.eqb esc "u" then
              match s'' with
              | String h1 (String h2 (String h3 (String h4 s3))) =>
                  match hex_value h1, hex_value h2, hex_value h3, hex_value h4 with
                  | Some a, Some b, Some c', Some d =>
                      let uni := (((a * 16 + b) * 16 + c') * 16 + d)%nat in
                      if (uni <? 256)%nat
                      then cons_char (ascii_of_nat uni) (scanstring s3)
                      else None
                  | _, _, _, _ => None
                  end
              | _ => None
              end
            else
              match unescape esc with
              | Some ch => cons_char ch (scanstring s'')
              | None => None
              end
        end
      else if (nat_of_ascii c <? 32)%nat then None
      else cons_char c (scanstring s')
  end.

(** The longest run of digits at the head of [s], and the rest. *)
Fixpoint span_digits (s : string) : string * string :=
  match s with
  | String c s' =>
      if is_digit c
      then let (d, rest) := span_digits s' in (String c d, rest)
      else ("", s)
  | EmptyString => ("", "")
  end.

Fixpoint digits_value (s : string) (acc : Z) : Z :=
  match s with
  | String c s' => digits_value s' (10 * acc + Z.of_nat (nat_of_ascii c - 48))
  | EmptyString => acc
  end.

(** The three groups of [NUMBER_RE]: the integer part, the optional
    fraction and the optional exponent. *)
Definition match_integer (s : string) : option (bool * string * string) :=
  let (neg, s1) :=
    match s with
    | String c s' => if Ascii.eqb c "-" then (true, s') else (false, s)
    | EmptyString => (false, s)
    end in
  match s1 with
  | String c s2 =>
      if Ascii.eqb c "0" then Some (neg, "0", s2)
      else if is_digit c
      then let (d, rest) := span_digits s2 in Some (neg, String c d, rest)
      else None
  | EmptyString => None
  end.

Definition match_frac (s : string) : string * string :=
  match s with
  | String c s' =>
      if Ascii.eqb c "." then
        match span_digits s' with
        | (EmptyString, _) => ("", s)
        | (d, rest) => (String c d, rest)
        end
      else ("", s)
  | EmptyString => ("", s)
  end.

Definition match_exp (s : string) : string * string :=
  match s with
  | String c s' =>
      if Ascii.eqb c "e" || Ascii.eqb c "E" then
        let (sign, s1) :=
          match s' with
          | String c' t =>
              if Ascii.eqb c' "+" || Ascii.eqb c' "-"
              then (String c' "", t) else ("", s')
          | EmptyString => ("", s')
          end in
        match span_digits s1 with
        | (EmptyString, _) => ("", s)
        | (d, rest) => (String c (sign ++ d), rest)
        end
      else ("", s)
  | EmptyString => ("", s)
  end.

Definition scan_number (s : string) : option (json * string) :=
  match match_integer s with
  | None => None
  | Some (neg, digits, s1) =>
      let (frac, s2) := match_frac s1 in
      let (exp, s3) := match_exp s2 in
      let sign := if neg then "-" else "" in
      match frac, exp with
      | EmptyString, EmptyString =>
          let n := digits_value digits 0 in
          Some (JInt (if neg then - n else n), s3)
      | _, _ => Some (JFloat (FloatLit (sign ++ digits ++ frac ++ exp)), s3)
      end
  end.

(** [s] without its prefix [lit], when it starts with it. *)
Fixpoint strip_prefix (lit s : string) : option string :=
  match lit with
  | EmptyString => Some s
  | String c lit' =>
      match s with
      | String c' s' => if Ascii.eqb c c' then strip_prefix lit' s' else None
      | EmptyString => None
      end
  end.

(** [scan_once], [JSONArray] and [JSONObject]; [fuel] bounds the depth of
    the calls. *)
Fixpoint scan_once (fuel : nat) (s : string) : option (json * string) :=
  match fuel with
  | O => None
  | S fuel' =>
      match s with
      | EmptyString => None
      | String c s' =>
          if Ascii.eqb c dquote then
            match scanstring s' with
            | Some (str, rest) => Some (JStr str, rest)
            | None => None
            end
          else if Ascii.eqb c "{" then
            match skip_whitespace s' with
            | EmptyString => None
            | String c1 s1 =>
                if Ascii.eqb c1 "}" then Some (JDict [], s1)
                else
                  match scan_pairs fuel' (String c1 s1) with
                  | Some (pairs, rest) => Some (JDict (dict_of_pairs pairs), rest)
                  | None => None
                  end
            end
          else if Ascii.eqb c "[" then
            match skip_whitespace s' with
            | EmptyString => None
            | String c1 s1 =>
                if Ascii.eqb c1 "]" then Some (JList [], s1)
                else
                  match scan_items fuel' (String c1 s1) with
                  | Some (items, rest) => Some (JList items, rest)
                  | None => None
                  end
            end
          else
            match strip_prefix "null" s, strip_prefix "true" s,
                  strip_prefix "false" s with
            | Some rest, _, _ => Some (JNull, rest)
            | _, Some rest, _ => Some (JBool true, rest)
            | _, _, Some rest => Some (JBool false, rest)
            | None, None, None => scan_number s
            end
      end
  end

with scan_items (fuel : nat) (s : string) : option (list json * string) :=
  match fuel with
  | O => None
  | S fuel' =>
      match scan_once fuel' s with
      | None => None
      | Some (v, rest) =>
          match skip_whitespace rest with
          | EmptyString => None
          | String c rest' =>
              if Ascii.eqb c "]" then Some ([v], rest')
              else if Ascii.eqb c "," then
                match scan_items fuel' (skip_whitespace rest') with
                | Some (vs, rest'') => Some (v :: vs, rest'')
                | None => None
                end
              else None
          end
      end
  end

with scan_pairs (fuel : nat) (s : string)
  : option (list (string * json) * string) :=
  match fuel with
  | O => None
  | S fuel' =>
      match s with
      | EmptyString => None
      | String c s' =>
          if Ascii.eqb c dquote then
            match scanstring s' with
            | None => None
            | Some (key, s1) =>
                match skip_whitespace s1 with
                | EmptyString => None
                | String c1 s2 =>
                    if Ascii.eqb c1 ":" then
                      match scan_once fuel' (skip_whitespace s2) with
                      | None => None
                      | Some (v, rest) =>
                          match skip_whitespace rest with
                          | EmptyString => None
                          | String c2 rest' =>
                              if Ascii.eqb c2 "}" then Some ([(key, v)], rest')
                              else if Ascii.eqb c2 "," then
                                match scan_pairs fuel' (skip_whitespace rest') with
                                | Some (kvs, rest'') =>
                                    Some ((key, v) :: kvs, rest'')
                                | None => None
                                end
                              else None
                          end
                      end
                    else None
                end
            end
          else None
      end
  end.

(** [json.loads(s)]: one value between optional white space, nothing
    after it.  No call chain of the scanner is longer than twice the
    document. *)
Definition json_loads (s : string) : option json :=
  match scan_once (S (2 * String.length s)) (skip_whitespace s) with
  | Some (v, rest) =>
      match skip_whitespace rest with
      | EmptyString => Some v
      | String _ _ => None
      end
  | None => None
  end.

(** ** The environment and the effect log *)

Inductive log_level := INFO | ERROR.

(** What the client does to the outside: log records and awaited sleeps,
    the v0.1.0 stand-ins for the connection and the gRPC round trips. *)
Inductive event :=
| Log (level : log_level) (msg : string)
| Sleep (delay : float).

(** The environment answers the calls the client makes to the outside in
    the order they are made: the [n]-th awaited call completes or raises,
    the [n]-th clock reading yields [int(time.time() * 1000)] or
    [datetime.now()]. *)
Record Env := {
  await_outcome : nat -> option exn;
  time_ms : nat -> Z;
  now : nat -> datetime
}.

Record World := {
  awaits : nat;
  clock_reads : nat;
  trace : list event
}.

(** [self]: the attributes [__init__] sets.  No channel or stub is ever
    created in v0.1.0; the three attributes stay [None]. *)
Record CSNeRSClient := {
  host : string;
  port : Z;
  address : string;
  _connected : bool;
  _channel : option unit;
  _observation_stub : option unit;
  _query_stub : option unit
}.

Record State := {
  self : CSNeRSClient;
  world : World
}.

Inductive outcome (A : Type) :=
| Return (a : A)
| Raise (e : exn).
Arguments Return {A} a.
Arguments Raise {A} e.

(** A coroutine of the client, run to completion. *)
Definition M (A : Type) : Type := Env -> State -> outcome A * State.

#[global] Instance Monad_M : Monad M := {
  ret := fun _ a _ st => (Return a, st);
  bind := fun _ _ c k env st =>
    match c env st with
    | (Return a, st') => k a env st'
    | (Raise e, st') => (Raise e, st')
    end
}.

(** A raised exception leaves the mutations made before it in place. *)
#[global] Instance MonadExc_M : MonadExc exn M := {
  raise := fun _ e _ st => (Raise e, st);
  catch := fun _ c h env st =>
    match c env st with
    | (Return a, st') => (Return a, st')
    | (Raise e, st') => h e env st'
    end
}.

(** [try: body / except Exception as e: handler]. *)
Definition try_except_Exception {A : Type} (body : M A) (handler : exn -> M A)
  : M A :=
  catch body (fun e => if isinstance_Exception e then handler e else raise e).

Definition emit (ev : event) : M unit :=
  fun _ st =>
    (Return tt,
     {| self := self st;
        world := {| awaits := awaits (world st);
                    clock_reads := clock_reads (world st);
                    trace := trace (world st) ++ [ev] |} |}).

Definition logger_info (msg : string) : M unit := emit (Log INFO msg).
Definition logger_error (msg : string) : M unit := emit (Log ERROR msg).

(** [await asyncio.sleep(delay)]. *)
Definition asyncio_sleep (delay : float) : M unit :=
  fun env st =>
    let st' :=
      {| self := self st;
         world := {| awaits := S (awaits (world st));
                     clock_reads := clock_reads (world st);
                     trace := trace (world st) ++ [Sleep delay] |} |} in
    match await_outcome env (awaits (world st)) with
    | None => (Return tt, st')
    | Some e => (Raise e, st')
    end.

(** [int(time.time() * 1000)]. *)
Definition time_time_ms : M Z :=
  fun env st =>
    (Return (time_ms env (clock_reads (world st))),
     {| self := self st;
        world := {| awaits := awaits (world st);
                    clock_reads := S (clock_reads (world st));
                    trace := trace (world st) |} |}).

(** [datetime.now()]. *)
Definition datetime_now : M datetime :=
  fun env st =>
    (Return (now env (clock_reads (world st))),
     {| self := self st;
        world := {| awaits := awaits (world st);
                    clock_reads := S (clock_reads (world st));
                    trace := trace (world st) |} |}).

Definition get_self : M CSNeRSClient := fun _ st => (Return (self st), st).

(** [self._connected = b]. *)
Definition set_connected (b : bool) : M unit :=
  fun _ st =>
    (Return tt,
     {| self := {| host := host (self st); port := port (self st);
                   address := address (self st); _connected := b;
                   _channel := _channel (self st);
                   _observation_stub := _observation_stub (self st);
                   _query_stub := _query_stub (self st) |};
        world := world st |}).

(** ** [CSNeRSClient] *)

(** [__init__]: the fresh object, and the world after its log record. *)
Definition new_CSNeRSClient (host : string) (port : Z) : CSNeRSClient :=
  {| host := host; port := port;
     address := host ++ ":" ++ str_of_int port;
     _connected := false;
     _channel := None; _observation_stub := None; _query_stub := None |}.

Definition init_state (host : string) (port : Z) : State :=
  {| self := new_CSNeRSClient host port;
     world := {| awaits := 0; clock_reads := 0;
                 trace := [Log INFO ("CSNeRSClient initialized for "
                                     ++ host ++ ":" ++ str_of_int port)] |} |}.

Definition connect : M bool :=
  try_except_Exception
    (c <- get_self ;;
     logger_info ("Connecting to CSNePS server at " ++ address c) ;;
     asyncio_sleep (FloatLit "0.1") ;;
     set_connected true ;;
     logger_info "Connected to CSNePS server successfully" ;;
     ret true)
    (fun e =>
       logger_error ("Failed to connect to CSNePS server: " ++ exn_str e) ;;
       set_connected false ;;
       ret false).

Definition disconnect : M unit :=
  c <- get_self ;;
  match _channel c with
  | Some _ => logger_info "Disconnecting from CSNePS server"
  | None => ret tt
  end ;;
  set_connected false ;;
  logger_info "Disconnected from CSNePS server".

(** The [is_connected] property. *)
Definition is_connected (c : CSNeRSClient) : bool := _connected c.

(** [f"{x}"] for an [Optional[str]]. *)
Definition format_optional (x : option string) : string :=
  match x with
  | Some s => s
  | None => "None"
  end.

Definition send_loop_closure (observation : LoopClosure) : M ObservationResponse :=
  let dispatch :=
    try_except_Exception
      (logger_info ("Sending loop closure observation: "
                    ++ lc_landmark_id observation) ;;
       asyncio_sleep (FloatLit "0.05") ;;
       t <- time_time_ms ;;
       let response :=
         new_ObservationResponse true "Loop closure processed successfully"
           (Some ("obs_" ++ str_of_int t))
           (Some ["slam-rule-1"; "slam-rule-2"]) in
       logger_info ("Loop closure observation processed: "
                    ++ format_optional (observation_id response)) ;;
       ret response)
      (fun e =>
         logger_error ("Failed to send loop closure observation: " ++ exn_str e) ;;
         ret (new_ObservationResponse false
                ("Error sending observation: " ++ exn_str e) None None)) in
  c <- get_self ;;
  if negb (_connected c) then
    ok <- connect ;;
    if negb ok then
      ret (new_ObservationResponse false "Not connected to CSNePS server"
             None None)
    else dispatch
  else dispatch.

Definition send_appearance_match (observation : AppearanceMatch)
  : M ObservationResponse :=
  let dispatch :=
    try_except_Exception
      (logger_info ("Sending appearance match observation: "
                    ++ am_landmark_id observation) ;;
       asyncio_sleep (FloatLit "0.05") ;;
       t <- time_time_ms ;;
       let response :=
         new_ObservationResponse true "Appearance match processed successfully"
           (Some ("obs_" ++ str_of_int t))
           (Some ["slam-rule-2"; "slam-rule-3"]) in
       logger_info ("Appearance match observation processed: "
                    ++ format_optional (observation_id response)) ;;
       ret response)
      (fun e =>
         logger_error ("Failed to send appearance match observation: "
                       ++ exn_str e) ;;
         ret (new_ObservationResponse false
                ("Error sending observation: " ++ exn_str e) None None)) in
  c <- get_self ;;
  if negb (_connected c) then
    ok <- connect ;;
    if negb ok then
      ret (new_ObservationResponse false "Not connected to CSNePS server"
             None None)
    else dispatch
  else dispatch.

Definition send_gnc_event (observation : GNCEvent) : M ObservationResponse :=
  let dispatch :=
    try_except_Exception
      (logger_info ("Sending GNC event observation: "
                    ++ gnc_event_type observation) ;;
       asyncio_sleep (FloatLit "0.05") ;;
       t <- time_time_ms ;;
       let response :=
         new_ObservationResponse true "GNC event processed successfully"
           (Some ("obs_" ++ str_of_int t))
           (Some ["gnc-rule-1"; "gnc-rule-2"]) in
       logger_info ("GNC event observation processed: "
                    ++ format_optional (observation_id response)) ;;
       ret response)
      (fun e =>
         logger_error ("Failed to send GNC event observation: " ++ exn_str e) ;;
         ret (new_ObservationResponse false
                ("Error sending observation: " ++ exn_str e) None None)) in
  c <- get_self ;;
  if negb (_connected c) then
    ok <- connect ;;
    if negb ok then
      ret (new_ObservationResponse false "Not connected to CSNePS server"
             None None)
    else dispatch
  else dispatch.

Definition send_medical_finding (observation : MedicalFinding)
  : M ObservationResponse :=
  let dispatch :=
    try_except_Exception
      (logger_info ("Sending medical finding observation: "
                    ++ mf_finding_type observation) ;;
       asyncio_sleep (FloatLit "0.05") ;;
       t <- time_time_ms ;;
       let response :=
         new_ObservationResponse true "Medical finding processed successfully"
           (Some ("obs_" ++ str_of_int t))
           (Some ["medical-rule-1"; "medical-rule-3"]) in
       logger_info ("Medical finding observation processed: "
                    ++ format_optional (observation_id response)) ;;
       ret response)
      (fun e =>
         logger_error ("Failed to send medical finding observation: "
                       ++ exn_str e) ;;
         ret (new_ObservationResponse false
                ("Error sending observation: " ++ exn_str e) None None)) in
  c <- get_self ;;
  if negb (_connected c) then
    ok <- connect ;;
    if negb ok then
      ret (new_ObservationResponse false "Not connected to CSNePS server"
             None None)
    else dispatch
  else dispatch.

(** The [if]/[elif] chain of [query_beliefs] that fills [mock_beliefs]: the
    canned beliefs of v0.1.0, each [created_at] a clock reading of its own,
    in the order the list displays evaluate them; [[]] for any other
    concept. *)
Definition mock_beliefs_for (concept : string) : M (list BeliefInfo) :=
  if String.eqb concept "HighConfidenceLandmark" then
    t1 <- datetime_now ;;
    t2 <- datetime_now ;;
    ret [ {| belief_id := "landmark-1";
             belief_type := "HighConfidenceLandmark";
             content := json_dumps None
                          (JDict [("landmark_id", JStr "L001");
                                  ("confidence", JFloat (FloatLit "0.85"))]);
             confidence := FloatLit "0.85";
             created_at := t1 |};
          {| belief_id := "landmark-2";
             belief_type := "HighConfidenceLandmark";
             content := json_dumps None
                          (JDict [("landmark_id", JStr "L002");
                                  ("confidence", JFloat (FloatLit "0.91"))]);
             confidence := FloatLit "0.91";
             created_at := t2 |} ]
  else if String.eqb concept "Hypothesis" then
    t1 <- datetime_now ;;
    ret [ {| belief_id := "hypothesis-1";
             belief_type := "Hypothesis";
             content := json_dumps None
                          (JDict [("event_type", JStr "thruster_anomaly");
                                  ("hypothesis", JStr "performance_degradation")]);
             confidence := FloatLit "0.72";
             created_at := t1 |} ]
  else if String.eqb concept "Recommendation" then
    t1 <- datetime_now ;;
    ret [ {| belief_id := "recommendation-1";
             belief_type := "Recommendation";
             content := json_dumps None
                          (JDict [("finding_type", JStr "lesion");
                                  ("action", JStr "biopsy");
                                  ("priority", JStr "urgent")]);
             confidence := FloatLit "0.91";
             created_at := t1 |} ]
  else ret [].

Definition query_beliefs (query : BeliefQuery) : M BeliefResponse :=
  let dispatch :=
    try_except_Exception
      (logger_info ("Querying beliefs for concept: " ++ concept query) ;;
       asyncio_sleep (FloatLit "0.1") ;;
       mock_beliefs <- mock_beliefs_for (concept query) ;;
       let response :=
         {| beliefs := slice_to mock_beliefs (limit query);
            br_success := true;
            br_message := "Query executed successfully" |} in
       logger_info ("Query returned "
                    ++ str_of_int (Z.of_nat (length (beliefs response)))
                    ++ " beliefs") ;;
       ret response)
      (fun e =>
         logger_error ("Failed to query beliefs: " ++ exn_str e) ;;
         ret {| beliefs := [];
                br_success := false;
                br_message := "Error querying beliefs: " ++ exn_str e |}) in
  c <- get_self ;;
  if negb (_connected c) then
    ok <- connect ;;
    if negb ok then
      ret {| beliefs := [];
             br_success := false;
             br_message := "Not connected to CSNePS server" |}
    else dispatch
  else dispatch.

(** The dictionary display of [get_justification]. *)
Definition justification (query : JustificationQuery) : list (string * json) :=
  [ ("belief_id", JStr (jq_belief_id query));
    ("rule_path", JList [JStr "observation"; JStr "rule-1"; JStr "conclusion"]);
    ("premises", JList [JStr "loop-closure-score > 0.8";
                        JStr "consistent-appearance"]);
    ("confidence", JFloat (FloatLit "0.85"));
    ("depth", JInt 2) ].

Definition get_justification (query : JustificationQuery)
  : M JustificationResponse :=
  let dispatch :=
    try_except_Exception
      (logger_info ("Getting justification for belief: " ++ jq_belief_id query) ;;
       asyncio_sleep (FloatLit "0.05") ;;
       let response :=
         {| justification_tree := json_dumps (Some 2%nat)
                                    (JDict (justification query));
            jr_success := true;
            jr_message := "Justification retrieved successfully" |} in
       logger_info ("Justification retrieved for belief: "
                    ++ jq_belief_id query) ;;
       ret response)
      (fun e =>
         logger_error ("Failed to get justification: " ++ exn_str e) ;;
         ret {| justification_tree := "{}";
                jr_success := false;
                jr_message := "Error getting justification: " ++ exn_str e |}) in
  c <- get_self ;;
  if negb (_connected c) then
    ok <- connect ;;
    if negb ok then
      ret {| justification_tree := "{}";
             jr_success := false;
             jr_message := "Not connected to CSNePS server" |}
    else dispatch
  else dispatch.

(** ** The convenience function [send_observation] *)

(** What a caller can pass as [observation]: an instance of one of the four
    data classes, or any other object, of which only the class name is
    looked at ([type(observation)] prints as [<class 'name'>]).  The
    [client] argument is the client of the state. *)
Inductive pyobject :=
| PyLoopClosure (o : LoopClosure)
| PyAppearanceMatch (o : AppearanceMatch)
| PyGNCEvent (o : GNCEvent)
| PyMedicalFinding (o : MedicalFinding)
| PyOther (class_name : string).

Definition send_observation (observation : pyobject) : M ObservationResponse :=
  match observation with
  | PyLoopClosure o => send_loop_closure o
  | PyAppearanceMatch o => send_appearance_match o
  | PyGNCEvent o => send_gnc_event o
  | PyMedicalFinding o => send_medical_finding o
  | PyOther class_name =>
      raise (ValueError ("Unsupported observation type: <class '"
                         ++ class_name ++ "'>"))
  end.

(** [query_all_concepts]: the dictionary it fills, in insertion order. *)
Fixpoint query_each (concepts : list string) (limit : Z)
  : M (list (string * BeliefResponse)) :=
  match concepts with
  | [] => ret []
  | concept :: concepts' =>
      r <- query_beliefs {| concept := concept; limit := limit;
                            include_justification := false |} ;;
      rs <- query_each concepts' limit ;;
      ret ((concept, r) :: rs)
  end.

Definition query_all_concepts (limit : Z) : M (list (string * BeliefResponse)) :=
  query_each ["HighConfidenceLandmark"; "Hypothesis"; "Recommendation"] limit.

(** ** Running the model on the demo's inputs *)

(** The v0.1.0 runtime: every awaited sleep completes. *)
Definition quiet_env : Env :=
  {| await_outcome := fun _ => None;
     time_ms := fun n => 1700000000000 + Z.of_nat n;
     now := fun n => Z.of_nat n |}.

(** An environment whose [n]-th awaited call raises [e]. *)
Definition failing_at (n : nat) (e : exn) : Env :=
  {| await_outcome := fun k => if Nat.eqb k n then Some e else None;
     time_ms := time_ms quiet_env;
     now := now quiet_env |}.

Definition boom : exn := mk_exn "ConnectionError" true "boom".
Definition cancelled : exn := mk_exn "CancelledError" false "".

Definition demo_loop_closure : LoopClosure :=
  {| lc_landmark_id := "L001"; lc_score := FloatLit "0.85";
     lc_method := "visual";
     lc_pose_estimate := map FloatLit ["10.5"; "3.2"; "0.0"; "0.0"; "0.0"; "0.0"; "1.0"];
     lc_timestamp := Some 0 |}.

Definition demo_state : State := init_state "localhost" 50051.

(** The demo's client after a first successful [connect]. *)
Definition connected_state : State := snd (connect quiet_env demo_state).

Definition demo_query : BeliefQuery :=
  {| concept := "HighConfidenceLandmark"; limit := 1;
     include_justification := false |}.

Definition unknown_query : BeliefQuery :=
  {| concept := "Obstacle"; limit := 10; include_justification := false |}.

Definition demo_justification_query : JustificationQuery :=
  {| jq_belief_id := "landmark-1"; max_depth := 5 |}.

Definition shallow_justification_query : JustificationQuery :=
  {| jq_belief_id := "landmark-1"; max_depth := 1 |}.

(** * The vocabulary of the properties *)

(** [completes run P]: the call returned a value that satisfies [P] in the
    state it left, or it was abandoned by an exception that is not an
    [Exception] (a cancelled task), which no handler of the client names. *)
Definition completes {A : Type} (run : outcome A * State)
    (P : A -> State -> Prop) : Prop :=
  match run with
  | (Return r, st') => P r st'
  | (Raise e, _) => isinstance_Exception e = false
  end.

(** A property shared by the four typed submit methods. *)
Definition each_submit (P : M ObservationResponse -> Prop) : Prop :=
  (forall o, P (send_loop_closure o)) /\
  (forall o, P (send_appearance_match o)) /\
  (forall o, P (send_gnc_event o)) /\
  (forall o, P (send_medical_finding o)).

(** The number of [connect] calls a trace records: [connect] opens with its
    [Connecting to ...] log record, which no other method writes. *)
Definition is_connect_call (ev : event) : bool :=
  match ev with
  | Log INFO msg => String.prefix "Connecting to CSNePS server at " msg
  | _ => false
  end.

Definition connect_calls (t : list event) : nat :=
  length (filter is_connect_call t).

(** The awaited call that stands for the round trip of a submit, query or
    justification call: the next one on a connected client, the one after
    the implicit [connect]'s otherwise. *)
Definition dispatch_await (st : State) : nat :=
  if is_connected (self st) then awaits (world st) else S (awaits (world st)).

(** The response of a submit method whose implicit [connect] failed. *)
Definition not_connected_response : ObservationResponse :=
  new_ObservationResponse false "Not connected to CSNePS server" None None.

(** [keeps_connection ok call]: [call] never takes a connected client to
    disconnected, and whenever it returns a response with [ok] true the
    client is connected. *)
Definition keeps_connection {A : Type} (ok : A -> bool) (call : M A) : Prop :=
  forall env st,
    (is_connected (self st) = true ->
     is_connected (self (snd (call env st))) = true) /\
    (forall r st',
       call env st = (Return r, st') -> ok r = true ->
       is_connected (self st') = true).

(** [isinstance] against the four data classes. *)
Definition is_observation (o : pyobject) : bool :=
  match o with
  | PyOther _ => false
  | _ => true
  end.

(** [json.loads(tree)[key]], the way the tests and the demo look into a
    justification. *)
Definition payload_field (key tree : string) : option json :=
  match json_loads tree with
  | Some (JDict items) => dict_get key items
  | _ => None
  end.

(** The depth a justification payload declares. *)
Definition declared_depth (tree : string) : option Z :=
  match payload_field "depth" tree with
  | Some (JInt d) => Some d
  | _ => None
  end.

(** What follows the [belief_id] entry in the text of a justification: the
    four entries that do not depend on the query, and the closing brace. *)
Definition justification_tail : string :=
  item_separator (Some 2%nat) 1
  ++ String.concat (item_separator (Some 2%nat) 1)
       (map (fun kv => encode_basestring_ascii (fst kv) ++ key_separator
                       ++ iterencode (Some 2%nat) 1 (snd kv))
            (tl (justification demo_justification_query)))
  ++ newline_indent (Some 2%nat) 0 ++ "}".

(** ** The vocabulary of the further properties *)

(** The attributes [__init__] sets and no method assigns again. *)
Definition same_endpoint (c c' : CSNeRSClient) : Prop :=
  host c' = host c /\ port c' = port c /\ address c' = address c /\
  _channel c' = _channel c /\
  _observation_stub c' = _observation_stub c /\ _query_stub c' = _query_stub c.

(** [keeps_endpoint call]: [call] assigns none of them. *)
Definition keeps_endpoint {A : Type} (call : M A) : Prop :=
  forall env st, same_endpoint (self st) (self (snd (call env st))).

(** [single_round_trip call]: on a connected client [call] makes no
    [connect] and awaits exactly one call, whatever comes of it. *)
Definition single_round_trip {A : Type} (call : M A) : Prop :=
  forall env st,
    is_connected (self st) = true ->
    connect_calls (trace (world (snd (call env st))))
    = connect_calls (trace (world st)) /\
    awaits (world (snd (call env st))) = S (awaits (world st)).

(** [accepts submit msg rules]: when the implicit [connect], if there is
    one, and the round trip complete, [submit] returns the success response
    with this message and these rules, its identifier made of the clock
    reading, and leaves the client connected. *)
Definition accepts (submit : M ObservationResponse) (msg : string)
    (rules : list string) : Prop :=
  forall env st,
    (is_connected (self st) = false ->
     await_outcome env (awaits (world st)) = None) ->
    await_outcome env (dispatch_await st) = None ->
    exists st',
      submit env st
      = (Return {| success := true; message := msg;
                   observation_id :=
                     Some ("obs_" ++ str_of_int
                                       (time_ms env (clock_reads (world st))));
                   triggered_rules := Some rules |}, st') /\
      is_connected (self st') = true.

(** How many beliefs the v0.1.0 backend holds for a concept. *)
Definition canned_count (concept : string) : Z :=
  if String.eqb concept "HighConfidenceLandmark" then 2
  else if String.eqb concept "Hypothesis" then 1
  else if String.eqb concept "Recommendation" then 1
  else 0.

(** [len(l[:stop])] for a list of [k] elements. *)
Definition slice_length (k stop : Z) : Z :=
  if stop <? 0 then Z.max 0 (k + stop) else Z.min stop k.

(** [json.loads(belief.content)[key]], as the demo reads a belief. *)
Definition content_field (key : string) (b : BeliefInfo) : option json :=
  payload_field key (content b).

(** What the demo reads in the content of a belief of each concept. *)
Definition content_well_formed (b : BeliefInfo) : Prop :=
  (belief_type b = "HighConfidenceLandmark" ->
   (exists id, content_field "landmark_id" b = Some (JStr id)) /\
   content_field "confidence" b = Some (JFloat (confidence b))) /\
  (belief_type b = "Hypothesis" ->
   exists h, content_field "hypothesis" b = Some (JStr h)) /\
  (belief_type b = "Recommendation" ->
   (exists a, content_field "action" b = Some (JStr a)) /\
   (exists p, content_field "priority" b = Some (JStr p))).

(** An environment whose clock stands still. *)
Definition frozen_clock_env : Env :=
  {| await_outcome := fun _ => None;
     time_ms := fun _ => 1700000000000;
     now := fun _ => 0 |}.

Definition demo_appearance_match : AppearanceMatch :=
  {| am_landmark_id := "L001"; am_consistency := "consistent";
     am_score := FloatLit "0.78"; am_timestamp := Some 0 |}.

Definition negative_limit_query : BeliefQuery :=
  {| concept := "HighConfidenceLandmark"; limit := -1;
     include_justification := false |}.

(** * Properties *)

(** ** Symbolic execution of the client

    A run is unfolded down to the environment's answers; every answer the
    goal then branches on is a case. *)

Ltac unfold_client :=
  cbv beta iota zeta delta
    [query_beliefs get_justification send_loop_closure send_appearance_match
     send_gnc_event send_medical_finding send_observation connect disconnect
     mock_beliefs_for try_except_Exception bind ret catch raise
     Monad_M MonadExc_M logger_info logger_error emit asyncio_sleep get_self
     set_connected time_time_ms datetime_now negb is_connected completes
     dispatch_await new_ObservationResponse ObservationResponse_post_init
     not_connected_response
     fst snd self world awaits clock_reads trace _connected address
     success message observation_id triggered_rules
     beliefs br_success br_message justification_tree jr_success jr_message]
    in *.

Ltac open_state st :=
  destruct st as [[?host ?port ?address ?connected ?channel ?ostub ?qstub]
                  [?aw ?cr ?tr]];
  unfold_client.

Ltac client_case :=
  match goal with
  | H : await_outcome ?env ?n = _ |- context [await_outcome ?env ?n] =>
      rewrite H
  | H : isinstance_Exception ?e = _ |- context [isinstance_Exception ?e] =>
      rewrite H
  | |- context [match await_outcome ?env ?n with _ => _ end] =>
      let e := fresh "e" in
      destruct (await_outcome env n) as [e|] eqn:?
  | |- context [if isinstance_Exception ?e then _ else _] =>
      destruct (isinstance_Exception e) eqn:?
  | |- context [if String.eqb ?a ?b then _ else _] =>
      destruct (String.eqb_spec a b)
  | |- context [if ?b then _ else _] => is_var b; destruct b
  end; unfold_client.

Ltac client_cases st := open_state st; repeat client_case.

(** ** Python helpers *)

Lemma slice_to_length {A : Type} (l : list A) (n : Z) :
  1 <= n -> Z.of_nat (length (slice_to l n)) <= n.
Proof.
  intros Hn. unfold slice_to.
  destruct (Z.ltb_spec n 0) as [Hneg | _]; [lia |].
  rewrite length_firstn. lia.
Qed.

Lemma slice_to_nil {A : Type} (n : Z) : slice_to (@nil A) n = [].
Proof.
  unfold slice_to. destruct (n <? 0); apply firstn_nil.
Qed.

Lemma append_assoc (s t u : string) : (s ++ t) ++ u = s ++ t ++ u.
Proof.
  induction s as [| c s IH]; simpl; [reflexivity | now rewrite IH].
Qed.

Lemma append_empty_r (s : string) : s ++ "" = s.
Proof.
  induction s as [| c s IH]; simpl; [reflexivity | now rewrite IH].
Qed.

Lemma string_length_append (s t : string) :
  String.length (s ++ t) = (String.length s + String.length t)%nat.
Proof.
  induction s as [| c s IH]; simpl; [reflexivity | now rewrite IH].
Qed.

Lemma prefix_append (s t : string) : String.prefix s (s ++ t) = true.
Proof.
  induction s as [| c s IH]; simpl.
  - destruct t; reflexivity.
  - destruct (ascii_dec c c) as [_ | Hne]; [exact IH | contradiction].
Qed.

Lemma contains_prefix (s hay : string) :
  String.prefix s hay = true -> contains s hay = true.
Proof.
  intros H. destruct hay; cbn [contains]; rewrite H; reflexivity.
Qed.

Lemma contains_append (p s t : string) : contains s (p ++ s ++ t) = true.
Proof.
  induction p as [| c p IH]; simpl.
  - apply contains_prefix, prefix_append.
  - rewrite IH. apply orb_true_r.
Qed.

Lemma contains_suffix (p s : string) : contains s (p ++ s) = true.
Proof.
  rewrite <- (append_empty_r s) at 2. apply contains_append.
Qed.

(** ** Counting [connect] calls in a trace *)

Lemma connect_calls_app (t u : list event) :
  connect_calls (t ++ u) = (connect_calls t + connect_calls u)%nat.
Proof.
  unfold connect_calls. rewrite filter_app. apply length_app.
Qed.

Lemma connect_calls_snoc_other (t : list event) (ev : event) :
  is_connect_call ev = false ->
  connect_calls (t ++ [ev]) = connect_calls t.
Proof.
  intros H. rewrite connect_calls_app. unfold connect_calls at 2.
  simpl. rewrite H. simpl. lia.
Qed.

Lemma connect_calls_snoc_connect (t : list event) (addr : string) :
  connect_calls (t ++ [Log INFO ("Connecting to CSNePS server at " ++ addr)])
  = S (connect_calls t).
Proof.
  rewrite connect_calls_app. unfold connect_calls at 2.
  cbn [filter is_connect_call]. rewrite prefix_append. simpl. lia.
Qed.

Ltac count_connects :=
  repeat first
    [ rewrite connect_calls_snoc_connect
    | rewrite connect_calls_snoc_other by reflexivity ];
  try reflexivity.

(** ** Reading a payload back *)

(** The scanner undoes the escape of one character. *)
Lemma scanstring_escape_char (c : ascii) (t : string) :
  scanstring (escape_char c ++ t) = cons_char c (scanstring t).
Proof.
  destruct c as [[] [] [] [] [] [] [] []]; reflexivity.
Qed.

Lemma scanstring_escape_ascii (s rest : string) :
  scanstring (escape_ascii s ++ String dquote rest) = Some (s, rest).
Proof.
  induction s as [| c s IH]; [reflexivity |].
  cbn [escape_ascii]. rewrite append_assoc, scanstring_escape_char, IH.
  reflexivity.
Qed.

(** More fuel never changes a successful scan. *)
Lemma scan_fuel_mono (n : nat) :
  forall m, (n <= m)%nat ->
    (forall s r, scan_once n s = Some r -> scan_once m s = Some r) /\
    (forall s r, scan_items n s = Some r -> scan_items m s = Some r) /\
    (forall s r, scan_pairs n s = Some r -> scan_pairs m s = Some r).
Proof.
  induction n as [| n IH]; intros m Hle.
  - repeat split; intros s r H; discriminate H.
  - destruct m as [| m]; [lia |].
    destruct (IH m ltac:(lia)) as (IHonce & IHitems & IHpairs).
    repeat split; intros s r H; cbn [scan_once scan_items scan_pairs] in *.
    + destruct s as [| c s]; [discriminate H |].
      destruct (Ascii.eqb c dquote); [exact H |].
      destruct (Ascii.eqb c "{").
      { destruct (skip_whitespace s) as [| c1 s1]; [discriminate H |].
        destruct (Ascii.eqb c1 "}"); [exact H |].
        destruct (scan_pairs n (String c1 s1)) as [[pairs rest] |] eqn:E;
          [| discriminate H].
        rewrite (IHpairs _ _ E). exact H. }
      destruct (Ascii.eqb c "[").
      { destruct (skip_whitespace s) as [| c1 s1]; [discriminate H |].
        destruct (Ascii.eqb c1 "]"); [exact H |].
        destruct (scan_items n (String c1 s1)) as [[items rest] |] eqn:E;
          [| discriminate H].
        rewrite (IHitems _ _ E). exact H. }
      exact H.
    + destruct (scan_once n s) as [[v rest] |] eqn:E; [| discriminate H].
      rewrite (IHonce _ _ E).
      destruct (skip_whitespace rest) as [| c rest']; [discriminate H |].
      destruct (Ascii.eqb c "]"); [exact H |].
      destruct (Ascii.eqb c ","); [| discriminate H].
      destruct (scan_items n (skip_whitespace rest')) as [[vs rest''] |] eqn:E';
        [| discriminate H].
      rewrite (IHitems _ _ E'). exact H.
    + destruct s as [| c s]; [discriminate H |].
      destruct (Ascii.eqb c dquote); [| discriminate H].
      destruct (scanstring s) as [[key s1] |]; [| discriminate H].
      destruct (skip_whitespace s1) as [| c1 s2]; [discriminate H |].
      destruct (Ascii.eqb c1 ":"); [| discriminate H].
      destruct (scan_once n (skip_whitespace s2)) as [[v rest] |] eqn:E;
        [| discriminate H].
      rewrite (IHonce _ _ E).
      destruct (skip_whitespace rest) as [| c2 rest']; [discriminate H |].
      destruct (Ascii.eqb c2 "}"); [exact H |].
      destruct (Ascii.eqb c2 ","); [| discriminate H].
      destruct (scan_pairs n (skip_whitespace rest')) as [[kvs rest''] |] eqn:E';
        [| discriminate H].
      rewrite (IHpairs _ _ E'). exact H.
Qed.

Lemma json_loads_fuel (n : nat) (s : string) (v : json) :
  (n <= S (2 * String.length s))%nat ->
  scan_once n (skip_whitespace s) = Some (v, "") ->
  json_loads s = Some v.
Proof.
  intros Hle H. unfold json_loads.
  rewrite (proj1 (scan_fuel_mono n _ Hle) _ _ H). reflexivity.
Qed.

Lemma justification_tree_text (query : JustificationQuery) :
  json_dumps (Some 2%nat) (JDict (justification query))
  = "{" ++ newline_indent (Some 2%nat) 1
    ++ encode_basestring_ascii "belief_id" ++ key_separator
    ++ encode_basestring_ascii (jq_belief_id query) ++ justification_tail.
Proof.
  unfold json_dumps, justification.
  cbn [iterencode map String.concat fst snd].
  generalize (encode_basestring_ascii (jq_belief_id query)) as lit. intros lit.
  rewrite !append_assoc. do 4 f_equal.
Qed.

Lemma scan_once_string (fuel : nat) (s rest : string) :
  scan_once (S fuel) (encode_basestring_ascii s ++ rest) = Some (JStr s, rest).
Proof.
  unfold encode_basestring_ascii. cbn [append scan_once].
  rewrite append_assoc. cbn [append].
  rewrite Ascii.eqb_refl, scanstring_escape_ascii. reflexivity.
Qed.

(** The first pair of an object whose value is a string. *)
Lemma scan_pairs_string_value (fuel : nat) (key s rest : string) :
  scan_pairs (S (S fuel))
    (encode_basestring_ascii key ++ key_separator
     ++ encode_basestring_ascii s ++ rest)
  = match skip_whitespace rest with
    | EmptyString => None
    | String c rest' =>
        if Ascii.eqb c "}" then Some ([(key, JStr s)], rest')
        else if Ascii.eqb c "," then
          match scan_pairs (S fuel) (skip_whitespace rest') with
          | Some (kvs, rest'') => Some ((key, JStr s) :: kvs, rest'')
          | None => None
          end
        else None
    end.
Proof.
  unfold encode_basestring_ascii at 1. cbn [append scan_pairs].
  rewrite append_assoc. cbn [append].
  rewrite Ascii.eqb_refl, scanstring_escape_ascii.
  change (skip_whitespace (key_separator ++ encode_basestring_ascii s ++ rest))
    with (String ":" (String " " (encode_basestring_ascii s ++ rest))).
  change (Ascii.eqb ":" ":") with true. cbv iota.
  change (skip_whitespace (String " " (encode_basestring_ascii s ++ rest)))
    with (encode_basestring_ascii s ++ rest).
  rewrite scan_once_string. reflexivity.
Qed.

Lemma json_loads_justification (query : JustificationQuery) :
  json_loads (json_dumps (Some 2%nat) (JDict (justification query)))
  = Some (JDict (justification query)).
Proof.
  rewrite justification_tree_text.
  apply json_loads_fuel with (n := 12%nat).
  - rewrite !string_length_append.
    change (String.length (encode_basestring_ascii "belief_id")) with 11%nat.
    lia.
  - change (scan_once 12 _)
      with (match scan_pairs 11
                    (encode_basestring_ascii "belief_id" ++ key_separator
                     ++ encode_basestring_ascii (jq_belief_id query)
                     ++ justification_tail) with
            | Some (pairs, rest) => Some (JDict (dict_of_pairs pairs), rest)
            | None => None
            end).
    rewrite scan_pairs_string_value.
    vm_compute. reflexivity.
Qed.

Lemma justification_tree_contains (query : JustificationQuery) :
  contains (encode_basestring_ascii (jq_belief_id query))
    (json_dumps (Some 2%nat) (JDict (justification query))) = true.
Proof.
  rewrite justification_tree_text.
  match goal with
  | |- contains ?lit (?a ++ ?b ++ ?c ++ ?d ++ ?lit ++ ?t) = true =>
      replace (a ++ b ++ c ++ d ++ lit ++ t)
        with ((a ++ b ++ c ++ d) ++ lit ++ t)
        by (now rewrite !append_assoc)
  end.
  apply contains_append.
Qed.

(** ** The connection *)

(** C4, as the code has it.  [connect] has no already-connected guard:
    every call, on a connected client too, runs the connection step again
    (one more awaited call, one more connection attempt in the log).  When
    the step completes, [connect] returns [True] and leaves the client
    connected, so two calls in a row whose steps complete both return
    [True] and the second leaves the client object as it was: the same
    connected state, the same (absent) channel and stubs.  When the step
    of a [connect] on a connected client raises an [Exception], [connect]
    returns [False] and the client is disconnected. *)
Theorem connect_reruns_connection (env : Env) (st : State) :
  (awaits (world (snd (connect env st))) = S (awaits (world st)) /\
   connect_calls (trace (world (snd (connect env st))))
   = S (connect_calls (trace (world st)))) /\
  (await_outcome env (awaits (world st)) = None ->
   await_outcome env (S (awaits (world st))) = None ->
   exists st1 st2,
     connect env st = (Return true, st1) /\
     is_connected (self st1) = true /\
     (is_connected (self st) = true -> self st1 = self st) /\
     connect env st1 = (Return true, st2) /\
     self st2 = self st1 /\
     awaits (world st2) = S (S (awaits (world st))) /\
     connect_calls (trace (world st2))
     = S (S (connect_calls (trace (world st))))) /\
  (forall e,
     is_connected (self st) = true ->
     await_outcome env (awaits (world st)) = Some e ->
     isinstance_Exception e = true ->
     exists st',
       connect env st = (Return false, st') /\
       is_connected (self st') = false).
Proof.
  split; [| split].
  - open_state st. repeat client_case; split; count_connects.
  - intros H1 H2. open_state st. rewrite H1.
    eexists. eexists. split; [reflexivity |]. unfold_client. rewrite H2.
    repeat split; try count_connects. intros ->. reflexivity.
  - intros e Hc Ha He. open_state st. subst. rewrite Ha, He.
    eexists. split; reflexivity.
Qed.

Lemma connect_reruns_connection_witness :
  (exists st1 st2,
     connect quiet_env demo_state = (Return true, st1) /\
     is_connected (self st1) = true /\
     (is_connected (self demo_state) = true -> self st1 = self demo_state) /\
     connect quiet_env st1 = (Return true, st2) /\
     self st2 = self st1 /\
     awaits (world st2) = S (S (awaits (world demo_state))) /\
     connect_calls (trace (world st2))
     = S (S (connect_calls (trace (world demo_state))))) /\
  (exists st',
     connect (failing_at 1 boom) connected_state = (Return false, st') /\
     is_connected (self st') = false).
Proof.
  split.
  - apply (proj1 (proj2 (connect_reruns_connection quiet_env demo_state)));
      reflexivity.
  - apply (proj2 (proj2 (connect_reruns_connection (failing_at 1 boom)
                           connected_state)) boom); reflexivity.
Defined.

(** C4 as the specification words it does not hold: [connect] on a
    connected client is not a no-op.  Even when it returns [True] it has
    awaited a second connection step and logged a second connection
    attempt; and when that step raises, it returns [False] and the client,
    connected before the call, is disconnected. *)
Lemma connect_on_connected_client_not_noop :
  is_connected (self connected_state) = true /\
  (exists st',
     connect quiet_env connected_state = (Return true, st') /\
     awaits (world st') = S (awaits (world connected_state)) /\
     connect_calls (trace (world st'))
     = S (connect_calls (trace (world connected_state)))) /\
  (exists st',
     connect (failing_at 1 boom) connected_state = (Return false, st') /\
     is_connected (self st') = false).
Proof.
  split; [reflexivity |]. split; eexists; repeat split.
Qed.

(** ** Variant dispatch *)

(** C3.  For a value that is an instance of none of the four observation
    classes, [send_observation] raises [ValueError] (an [Exception], so a
    hard failure for the caller, not a response object) and leaves the
    client and the effect log exactly as they were: no connect, no awaited
    call, no log record. *)
Theorem send_observation_unsupported (o : pyobject) (env : Env) (st : State) :
  is_observation o = false ->
  exists e,
    send_observation o env st = (Raise e, st) /\
    exn_class e = "ValueError" /\
    isinstance_Exception e = true /\
    String.prefix "Unsupported observation type: " (exn_str e) = true.
Proof.
  intros H. destruct o; try discriminate H.
  eexists. repeat split.
Qed.

Lemma send_observation_unsupported_witness :
  exists e,
    send_observation (PyOther "str") quiet_env demo_state
    = (Raise e, demo_state) /\
    exn_class e = "ValueError" /\
    isinstance_Exception e = true /\
    String.prefix "Unsupported observation type: " (exn_str e) = true.
Proof.
  apply (send_observation_unsupported (PyOther "str") quiet_env demo_state).
  reflexivity.
Defined.

(** ** Observation submission *)

(** C5, as the code has it.  On a disconnected client every submit method
    starts with one implicit [connect], and only one, whatever happens
    next; when that [connect] returns [False] the method returns (does not
    raise) the response [success = False] with the message
    [Not connected to CSNePS server], in the state [connect] left. *)
Theorem submit_auto_connect :
  each_submit (fun submit =>
    forall env st,
      is_connected (self st) = false ->
      (exists rest,
         trace (world (snd (submit env st)))
         = (trace (world st)
            ++ Log INFO ("Connecting to CSNePS server at " ++ address (self st))
            :: rest)%list) /\
      connect_calls (trace (world (snd (submit env st))))
      = S (connect_calls (trace (world st))) /\
      (forall st1,
         connect env st = (Return false, st1) ->
         submit env st = (Return not_connected_response, st1))).
Proof.
  repeat split; intros; open_state st; subst; repeat client_case;
    try (rewrite <- ?app_assoc; simpl; eexists; reflexivity);
    try count_connects;
    try match goal with
        | H : (_, _) = (Return false, _) |- _ =>
            inversion H; subst; reflexivity
        end.
Qed.

Lemma submit_auto_connect_witness :
  is_connected (self demo_state) = false /\
  connect_calls
    (trace (world (snd (send_loop_closure demo_loop_closure
                          (failing_at 0 boom) demo_state))))
  = S (connect_calls (trace (world demo_state))) /\
  send_loop_closure demo_loop_closure (failing_at 0 boom) demo_state
  = (Return not_connected_response,
     snd (connect (failing_at 0 boom) demo_state)).
Proof.
  destruct (proj1 submit_auto_connect demo_loop_closure (failing_at 0 boom)
              demo_state eq_refl) as (_ & Hcount & Hfail).
  split; [reflexivity | split; [exact Hcount | apply Hfail; reflexivity]].
Defined.

(** C5 as the specification words it does not hold: the message of the
    not-connected response is not the text [not connected]. *)
Lemma submit_not_connected_message :
  exists st1 r,
    connect (failing_at 0 boom) demo_state = (Return false, st1) /\
    send_loop_closure demo_loop_closure (failing_at 0 boom) demo_state
    = (Return r, st1) /\
    success r = false /\
    message r = "Not connected to CSNePS server" /\
    message r <> "not connected".
Proof.
  eexists. eexists. repeat split. discriminate.
Qed.

(** C2, as the code has it.  No [Exception] leaves a typed submit method;
    an exception that is not an [Exception] (the [CancelledError] of a
    cancelled task) goes through it, from the implicit [connect] as from
    the round trip.  An [Exception] raised by the round trip of the method
    itself is logged and turned into the response [success = False] whose
    message is [Error sending observation: ] followed by [str(e)]; one
    raised inside the implicit [connect] is turned by [connect] into
    [False] and by the method into the not-connected response, whose
    message is the same fixed text whatever the error. *)
Theorem submit_errors_reported :
  each_submit (fun submit =>
    forall env st,
      (forall e st', submit env st = (Raise e, st') ->
                     isinstance_Exception e = false) /\
      (forall e,
         isinstance_Exception e = true ->
         (is_connected (self st) = false ->
          await_outcome env (awaits (world st)) = None) ->
         await_outcome env (dispatch_await st) = Some e ->
         exists r st',
           submit env st = (Return r, st') /\
           success r = false /\
           message r = "Error sending observation: " ++ exn_str e /\
           contains (exn_str e) (message r) = true) /\
      (forall e,
         isinstance_Exception e = true ->
         is_connected (self st) = false ->
         await_outcome env (awaits (world st)) = Some e ->
         exists st', submit env st = (Return not_connected_response, st')) /\
      (forall e,
         isinstance_Exception e = false ->
         (is_connected (self st) = false ->
          await_outcome env (awaits (world st)) = None) ->
         await_outcome env (dispatch_await st) = Some e ->
         exists st', submit env st = (Raise e, st')) /\
      (forall e,
         isinstance_Exception e = false ->
         is_connected (self st) = false ->
         await_outcome env (awaits (world st)) = Some e ->
         exists st', submit env st = (Raise e, st'))).
Proof.
  repeat split; intros; open_state st; subst;
    repeat match goal with
           | H : false = false -> _ |- _ => specialize (H eq_refl)
           | H : true = false -> _ |- _ => clear H
           | H : _ = (Raise _, _) |- _ => revert H
           | b : bool |- _ => destruct b; unfold_client
           end;
    try discriminate;
    repeat client_case;
    try (intros H; inversion H; subst; assumption);
    try (eexists; reflexivity);
    try (eexists; eexists; repeat split; apply contains_suffix).
Qed.

Lemma submit_errors_reported_witness :
  (exists r st',
     send_loop_closure demo_loop_closure (failing_at 1 boom) demo_state
     = (Return r, st') /\
     success r = false /\
     message r = "Error sending observation: " ++ exn_str boom /\
     contains (exn_str boom) (message r) = true) /\
  (exists st',
     send_loop_closure demo_loop_closure (failing_at 0 boom) demo_state
     = (Return not_connected_response, st')) /\
  (exists st',
     send_loop_closure demo_loop_closure (failing_at 1 cancelled) demo_state
     = (Raise cancelled, st')).
Proof.
  pose proof (proj1 submit_errors_reported demo_loop_closure) as H.
  split; [| split].
  - apply (proj1 (proj2 (H (failing_at 1 boom) demo_state)) boom);
      reflexivity.
  - apply (proj1 (proj2 (proj2 (H (failing_at 0 boom) demo_state))) boom);
      reflexivity.
  - apply (proj1 (proj2 (proj2 (proj2 (H (failing_at 1 cancelled)
                                         demo_state)))) cancelled);
      reflexivity.
Defined.

(** C2 as the specification words it does not hold for every error.  The
    [ConnectionError] raised while the implicit [connect] runs is reported
    with [success = False], but by a message that does not contain its
    text; and the [CancelledError] of a task cancelled during the round
    trip is not turned into a response at all: it leaves the method. *)
Lemma submit_errors_not_all_converted :
  (exists r st',
     await_outcome (failing_at 0 boom) (awaits (world demo_state)) = Some boom /\
     isinstance_Exception boom = true /\
     send_loop_closure demo_loop_closure (failing_at 0 boom) demo_state
     = (Return r, st') /\
     success r = false /\
     message r = "Not connected to CSNePS server" /\
     contains (exn_str boom) (message r) = false) /\
  (exists st',
     await_outcome (failing_at 1 cancelled) (awaits (world connected_state))
     = Some cancelled /\
     send_loop_closure demo_loop_closure (failing_at 1 cancelled)
       connected_state
     = (Raise cancelled, st')).
Proof.
  split.
  - eexists. eexists. repeat split.
  - eexists. split; reflexivity.
Qed.

(** C6.  Every response a typed submit method returns has an
    [observation_id] exactly when [success] is true, and its
    [triggered_rules] is a list, never [None]: the success path passes
    both, the two failure paths pass neither and [__post_init__] puts the
    empty list in place of [None]. *)
Theorem submit_response_invariant :
  each_submit (fun submit =>
    forall env st,
      completes (submit env st)
        (fun r _ =>
           (observation_id r <> None <-> success r = true) /\
           triggered_rules r <> None)).
Proof.
  repeat split; intros; client_cases st; try reflexivity;
    (split; [split; intros; congruence | discriminate]).
Qed.


Lemma submit_response_invariant_witness :
  completes (send_loop_closure demo_loop_closure quiet_env demo_state)
    (fun r _ =>
       (observation_id r <> None <-> success r = true) /\
       triggered_rules r <> None).
Proof.
  apply (proj1 submit_response_invariant demo_loop_closure quiet_env demo_state).
Defined.

(** ** Belief queries *)

(** C1.  For a [BeliefQuery] whose [limit] is [n >= 1], the [beliefs] of the
    response [query_beliefs] returns has at most [n] entries: on the
    not-connected path and on the error path the list is empty, otherwise
    it is the slice [mock_beliefs[:n]].  The call always comes back with
    such a response unless the task is cancelled at an await. *)
Theorem query_beliefs_limit (query : BeliefQuery) (env : Env) (st : State) :
  1 <= limit query ->
  completes (query_beliefs query env st)
    (fun r _ => Z.of_nat (length (beliefs r)) <= limit query).
Proof.
  intros Hn. client_cases st; try assumption; try (simpl; lia);
    apply slice_to_length; assumption.
Qed.

Lemma query_beliefs_limit_witness :
  1 <= limit demo_query /\
  completes (query_beliefs demo_query quiet_env demo_state)
    (fun r _ => Z.of_nat (length (beliefs r)) <= limit demo_query).
Proof.
  split; [simpl; lia |].
  apply (query_beliefs_limit demo_query quiet_env demo_state).
  simpl; lia.
Defined.

(** C9.  A query for a concept other than the three the mock knows, on a
    connected client whose round trip completes, returns [success = true]
    with no beliefs: an unknown concept is not a failure. *)
Theorem query_beliefs_unknown_concept
    (query : BeliefQuery) (env : Env) (st : State) :
  concept query <> "HighConfidenceLandmark" ->
  concept query <> "Hypothesis" ->
  concept query <> "Recommendation" ->
  is_connected (self st) = true ->
  await_outcome env (awaits (world st)) = None ->
  exists st',
    query_beliefs query env st
    = (Return {| beliefs := []; br_success := true;
                 br_message := "Query executed successfully" |}, st').
Proof.
  intros H1 H2 H3 Hc Ha. open_state st. subst.
  repeat client_case; try contradiction.
  rewrite slice_to_nil. eexists. reflexivity.
Qed.

Lemma query_beliefs_unknown_concept_witness :
  exists st',
    query_beliefs unknown_query quiet_env connected_state
    = (Return {| beliefs := []; br_success := true;
                 br_message := "Query executed successfully" |}, st').
Proof.
  apply (query_beliefs_unknown_concept unknown_query quiet_env connected_state);
    solve [discriminate | reflexivity].
Defined.

(** ** Justifications *)

(** C7.  When [get_justification] succeeds, the payload it returns reads
    back, with [json.loads], as a dictionary whose [belief_id] entry is the
    [belief_id] of the query; in the text itself the identifier stands as
    its JSON string literal. *)
Theorem get_justification_belief_id
    (query : JustificationQuery) (env : Env) (st : State) :
  completes (get_justification query env st)
    (fun r _ =>
       jr_success r = true ->
       payload_field "belief_id" (justification_tree r)
       = Some (JStr (jq_belief_id query)) /\
       contains (encode_basestring_ascii (jq_belief_id query))
         (justification_tree r) = true).
Proof.
  client_cases st; try reflexivity; try discriminate; intros _;
    (split;
     [ unfold payload_field; rewrite json_loads_justification; reflexivity
     | apply justification_tree_contains ]).
Qed.

Lemma get_justification_belief_id_witness :
  completes (get_justification demo_justification_query quiet_env demo_state)
    (fun r _ =>
       jr_success r = true ->
       payload_field "belief_id" (justification_tree r)
       = Some (JStr "landmark-1") /\
       contains (encode_basestring_ascii "landmark-1")
         (justification_tree r) = true).
Proof.
  apply (get_justification_belief_id demo_justification_query quiet_env
           demo_state).
Defined.

(** C8, as the code has it.  The payload of a successful
    [get_justification] declares depth 2 whatever [max_depth] the query
    carries: the declared depth is at most [max_depth] exactly when
    [max_depth >= 2]. *)
Theorem get_justification_depth
    (query : JustificationQuery) (env : Env) (st : State) :
  completes (get_justification query env st)
    (fun r _ =>
       jr_success r = true ->
       exists d,
         declared_depth (justification_tree r) = Some d /\
         d = 2 /\
         (d <= max_depth query <-> 2 <= max_depth query)).
Proof.
  client_cases st; try reflexivity; try discriminate; intros _;
    (exists 2; split;
     [ unfold declared_depth, payload_field;
       rewrite json_loads_justification; reflexivity
     | split; [reflexivity | tauto] ]).
Qed.

Lemma get_justification_depth_witness :
  completes (get_justification demo_justification_query quiet_env demo_state)
    (fun r _ =>
       jr_success r = true ->
       exists d,
         declared_depth (justification_tree r) = Some d /\
         d = 2 /\
         (d <= max_depth demo_justification_query
          <-> 2 <= max_depth demo_justification_query)).
Proof.
  apply (get_justification_depth demo_justification_query quiet_env demo_state).
Defined.

(** C8 as the specification words it does not hold: with [max_depth = 1]
    the call succeeds and the payload declares depth 2. *)
Lemma get_justification_depth_exceeds_max_depth :
  exists r st',
    get_justification shallow_justification_query quiet_env demo_state
    = (Return r, st') /\
    jr_success r = true /\
    1 <= max_depth shallow_justification_query /\
    declared_depth (justification_tree r) = Some 2 /\
    ~ 2 <= max_depth shallow_justification_query.
Proof.
  eexists. eexists. split; [reflexivity |].
  split; [reflexivity |]. split; [simpl; lia |].
  split; [vm_compute; reflexivity | simpl; lia].
Qed.

(** ** The connected flag *)

Ltac keeps_connection_tac :=
  intros env st; split;
    [ intros Hc; open_state st; subst; repeat client_case; reflexivity
    | intros r st' Hrun Hok; revert Hrun; open_state st;
      repeat client_case; intros Hrun; inversion Hrun; subst;
      solve [reflexivity | discriminate Hok] ].

(** C10.  No submit, query or justification call disconnects the client,
    and one that returns [success = True] leaves [is_connected] true.  Of
    the other methods, [connect] takes a connected client to disconnected
    only by failing (returning [False]), and [disconnect] always does. *)
Theorem operations_keep_connection :
  each_submit (keeps_connection success) /\
  (forall query, keeps_connection br_success (query_beliefs query)) /\
  (forall query, keeps_connection jr_success (get_justification query)) /\
  (forall env st,
     is_connected (self st) = true ->
     is_connected (self (snd (connect env st))) = false ->
     fst (connect env st) = Return false) /\
  (forall env st, is_connected (self (snd (disconnect env st))) = false).
Proof.
  unfold each_submit. repeat apply conj; try (intros x; keeps_connection_tac).
  - intros env st Hc. open_state st. subst.
    repeat client_case; intros; try discriminate; reflexivity.
  - intros env st. open_state st. destruct channel; reflexivity.
Qed.

Lemma operations_keep_connection_witness :
  is_connected (self connected_state) = true /\
  is_connected
    (self (snd (send_loop_closure demo_loop_closure quiet_env connected_state)))
  = true.
Proof.
  split; [reflexivity |].
  apply (proj1 (proj1 (proj1 operations_keep_connection) demo_loop_closure
                  quiet_env connected_state)).
  reflexivity.
Defined.

(** * Further properties of the client *)

(** ** The connection life cycle *)

(** X1.  [disconnect] always returns: it awaits nothing, calls no
    [connect], leaves [is_connected] false and the other attributes as they
    were; a second [disconnect] changes nothing in the client. *)
Theorem disconnect_quiet (env : Env) (st : State) :
  exists st',
    disconnect env st = (Return tt, st') /\
    is_connected (self st') = false /\
    same_endpoint (self st) (self st') /\
    awaits (world st') = awaits (world st) /\
    connect_calls (trace (world st')) = connect_calls (trace (world st)) /\
    self (snd (disconnect env st')) = self st'.
Proof.
  open_state st. destruct channel as [[] |]; eexists;
    (split; [reflexivity |]); unfold same_endpoint; cbn;
    repeat split; count_connects.
Qed.

(** X2.  What [connect] returns is decided by its connection step alone:
    [True], with the client connected, when the step completes; [False],
    with the client disconnected even if it was connected before, when the
    step raises an [Exception]; an exception that is not an [Exception]
    goes through and leaves the flag as it was.  Either way one call is
    awaited. *)
Theorem connect_outcome (env : Env) (st : State) :
  (await_outcome env (awaits (world st)) = None ->
   fst (connect env st) = Return true /\
   is_connected (self (snd (connect env st))) = true) /\
  (forall e,
     await_outcome env (awaits (world st)) = Some e ->
     isinstance_Exception e = true ->
     fst (connect env st) = Return false /\
     is_connected (self (snd (connect env st))) = false) /\
  (forall e,
     await_outcome env (awaits (world st)) = Some e ->
     isinstance_Exception e = false ->
     fst (connect env st) = Raise e /\
     is_connected (self (snd (connect env st))) = is_connected (self st)) /\
  awaits (world (snd (connect env st))) = S (awaits (world st)).
Proof.
  repeat apply conj; intros; open_state st;
    repeat client_case; try discriminate;
    repeat match goal with
           | H : Some _ = Some _ |- _ => injection H as H; subst
           end;
    try (split; reflexivity); try reflexivity; try congruence.
Qed.

Lemma connect_outcome_witness :
  fst (connect (failing_at 1 boom) connected_state) = Return false /\
  is_connected (self (snd (connect (failing_at 1 boom) connected_state)))
  = false.
Proof.
  apply (proj1 (proj2 (connect_outcome (failing_at 1 boom) connected_state))
           boom); reflexivity.
Defined.

(** X3.  A failed [connect] leaves the client reusable: the next [connect]
    whose step completes returns [True] and connects. *)
Theorem connect_retry (env : Env) (st : State) (e : exn) :
  await_outcome env (awaits (world st)) = Some e ->
  isinstance_Exception e = true ->
  await_outcome env (S (awaits (world st))) = None ->
  exists st1 st2,
    connect env st = (Return false, st1) /\
    is_connected (self st1) = false /\
    connect env st1 = (Return true, st2) /\
    is_connected (self st2) = true.
Proof.
  intros H1 He H2. open_state st. rewrite H1, He.
  eexists. eexists. split; [reflexivity |]. unfold_client. rewrite H2.
  repeat split.
Qed.

Lemma connect_retry_witness :
  exists st1 st2,
    connect (failing_at 0 boom) demo_state = (Return false, st1) /\
    is_connected (self st1) = false /\
    connect (failing_at 0 boom) st1 = (Return true, st2) /\
    is_connected (self st2) = true.
Proof.
  apply (connect_retry (failing_at 0 boom) demo_state boom); reflexivity.
Defined.

(** ** Submitting observations *)

Ltac settle_guard :=
  repeat match goal with
         | H : false = false -> _ |- _ => specialize (H eq_refl)
         | H : true = false -> _ |- _ => clear H
         | H : _ = (Raise _, _) |- _ => revert H
         | b : bool |- _ => destruct b; unfold_client
         end.

(** X4.  The success path of the four submit methods, auto-connect
    included: when the awaited calls complete, the response is
    [success = True] with the method's message and its two rules, the
    identifier is [obs_] followed by the clock reading in milliseconds, and
    the client is connected afterwards. *)
Theorem submit_accepts :
  (forall o, accepts (send_loop_closure o)
               "Loop closure processed successfully"
               ["slam-rule-1"; "slam-rule-2"]) /\
  (forall o, accepts (send_appearance_match o)
               "Appearance match processed successfully"
               ["slam-rule-2"; "slam-rule-3"]) /\
  (forall o, accepts (send_gnc_event o)
               "GNC event processed successfully"
               ["gnc-rule-1"; "gnc-rule-2"]) /\
  (forall o, accepts (send_medical_finding o)
               "Medical finding processed successfully"
               ["medical-rule-1"; "medical-rule-3"]).
Proof.
  repeat apply conj; intros o env st Hconnect Hround; open_state st;
    settle_guard; repeat client_case;
    eexists; split; reflexivity.
Qed.

Lemma submit_accepts_witness :
  exists st',
    send_loop_closure demo_loop_closure quiet_env demo_state
    = (Return {| success := true;
                 message := "Loop closure processed successfully";
                 observation_id := Some "obs_1700000000000";
                 triggered_rules := Some ["slam-rule-1"; "slam-rule-2"] |},
       st') /\
    is_connected (self st') = true.
Proof.
  apply (proj1 submit_accepts demo_loop_closure quiet_env demo_state);
    reflexivity.
Defined.

(** X5.  Observation identifiers are clock readings, not unique names: a
    loop closure and the appearance match submitted after it, both
    accepted, carry the same [observation_id] whenever the clock shows the
    same millisecond at both submissions. *)
Theorem observation_id_repeats
    (o1 : LoopClosure) (o2 : AppearanceMatch) (env : Env) (st : State) :
  (forall n, await_outcome env n = None) ->
  time_ms env (S (clock_reads (world st))) = time_ms env (clock_reads (world st)) ->
  exists r1 st1 r2 st2,
    send_loop_closure o1 env st = (Return r1, st1) /\
    send_appearance_match o2 env st1 = (Return r2, st2) /\
    success r1 = true /\ success r2 = true /\
    observation_id r1 <> None /\
    observation_id r2 = observation_id r1.
Proof.
  intros Hquiet Hclock. open_state st.
  destruct connected; unfold_client; rewrite ?Hquiet;
    (eexists; eexists; eexists; eexists;
     split; [reflexivity |]; unfold_client; rewrite ?Hquiet;
     split; [reflexivity |]; rewrite Hclock;
     repeat split; discriminate).
Qed.

Lemma observation_id_repeats_witness :
  exists r1 st1 r2 st2,
    send_loop_closure demo_loop_closure frozen_clock_env demo_state
    = (Return r1, st1) /\
    send_appearance_match demo_appearance_match frozen_clock_env st1
    = (Return r2, st2) /\
    success r1 = true /\ success r2 = true /\
    observation_id r1 <> None /\
    observation_id r2 = observation_id r1.
Proof.
  apply (observation_id_repeats demo_loop_closure demo_appearance_match
           frozen_clock_env demo_state); reflexivity.
Defined.

(** X6.  [send_observation] raises an [Exception] exactly for the values
    that are instances of none of the four observation classes; for an
    instance of one of them any failure comes back as a response. *)
Theorem send_observation_raises_iff
    (o : pyobject) (env : Env) (st : State) :
  (exists e st',
     send_observation o env st = (Raise e, st') /\
     isinstance_Exception e = true)
  <-> is_observation o = false.
Proof.
  split.
  - intros (e & st' & Hrun & He).
    destruct o as [o | o | o | o | name]; [| | | | reflexivity]; exfalso;
      revert Hrun; cbn [send_observation]; open_state st;
      repeat client_case; intros Hrun; inversion Hrun; subst; congruence.
  - intros H. destruct o; try discriminate H.
    eexists. eexists. split; reflexivity.
Qed.

Lemma send_observation_raises_iff_witness :
  exists e st',
    send_observation (PyOther "str") quiet_env demo_state = (Raise e, st') /\
    isinstance_Exception e = true.
Proof.
  apply (proj2 (send_observation_raises_iff (PyOther "str") quiet_env
                  demo_state)).
  reflexivity.
Defined.

(** ** Querying beliefs *)

Lemma firstn_Forall {A : Type} (P : A -> Prop) (l : list A) :
  Forall P l -> forall n, Forall P (firstn n l).
Proof.
  induction 1 as [| x l Hx Hl IH]; intros [| n]; simpl; constructor; auto.
Qed.

Lemma slice_to_Forall {A : Type} (P : A -> Prop) (l : list A) (n : Z) :
  Forall P l -> Forall P (slice_to l n).
Proof.
  intros H. unfold slice_to. destruct (n <? 0); apply firstn_Forall; exact H.
Qed.

Lemma slice_to_length_eq {A : Type} (l : list A) (n : Z) :
  Z.of_nat (length (slice_to l n)) = slice_length (Z.of_nat (length l)) n.
Proof.
  unfold slice_to, slice_length.
  destruct (Z.ltb_spec n 0); rewrite length_firstn; lia.
Qed.

(** X7.  Every belief [query_beliefs] returns is of the concept asked for:
    its [belief_type] is the [concept] of the query. *)
Theorem query_beliefs_types (query : BeliefQuery) (env : Env) (st : State) :
  completes (query_beliefs query env st)
    (fun r _ => Forall (fun b => belief_type b = concept query) (beliefs r)).
Proof.
  client_cases st; try reflexivity; try apply Forall_nil;
    apply slice_to_Forall; repeat constructor; cbn; congruence.
Qed.

(** X8.  How many beliefs a response holds.  A failed query holds none.  A
    successful one holds what the slice [[:limit]] keeps of the [k] beliefs
    the backend has for the concept: [min limit k] for [limit >= 0], so
    none for [limit = 0]; for a negative [limit] the slice drops from the
    end and [max 0 (k + limit)] beliefs are returned. *)
Theorem query_beliefs_count (query : BeliefQuery) (env : Env) (st : State) :
  completes (query_beliefs query env st)
    (fun r _ =>
       (br_success r = false -> beliefs r = []) /\
       (br_success r = true ->
        Z.of_nat (length (beliefs r))
        = slice_length (canned_count (concept query)) (limit query))).
Proof.
  unfold canned_count.
  client_cases st; try reflexivity;
    (split; [intros; try reflexivity; discriminate |]); intros; try discriminate;
    rewrite slice_to_length_eq; reflexivity.
Qed.

Lemma query_beliefs_count_witness :
  completes (query_beliefs negative_limit_query quiet_env demo_state)
    (fun r _ =>
       (br_success r = false -> beliefs r = []) /\
       (br_success r = true -> Z.of_nat (length (beliefs r)) = 1)).
Proof.
  apply (query_beliefs_count negative_limit_query quiet_env demo_state).
Defined.

(** X9.  The [content] of every belief returned reads back with
    [json.loads] as the demo expects: a landmark carries its [landmark_id]
    and the same [confidence] as the record, a hypothesis its
    [hypothesis], a recommendation its [action] and [priority]. *)
Theorem query_beliefs_content (query : BeliefQuery) (env : Env) (st : State) :
  completes (query_beliefs query env st)
    (fun r _ => Forall content_well_formed (beliefs r)).
Proof.
  client_cases st; try reflexivity; try apply Forall_nil;
    apply slice_to_Forall; try apply Forall_nil;
    repeat (apply Forall_cons; [| try apply Forall_nil]);
    unfold content_well_formed, content_field; cbn [belief_type content confidence];
    (repeat apply conj; intros H; try discriminate H; repeat apply conj;
     try (eexists; vm_compute; reflexivity); vm_compute; reflexivity).
Qed.

(** X10.  [query_beliefs] reports errors the way the submit methods do: no
    [Exception] leaves it; one raised by its round trip gives
    [success = False], no beliefs and the message
    [Error querying beliefs: ] followed by [str(e)]; one raised inside the
    implicit [connect] gives the not-connected message. *)
Theorem query_errors_reported (query : BeliefQuery) (env : Env) (st : State) :
  (forall e st', query_beliefs query env st = (Raise e, st') ->
                 isinstance_Exception e = false) /\
  (forall e,
     isinstance_Exception e = true ->
     (is_connected (self st) = false ->
      await_outcome env (awaits (world st)) = None) ->
     await_outcome env (dispatch_await st) = Some e ->
     exists st',
       query_beliefs query env st
       = (Return {| beliefs := []; br_success := false;
                    br_message := "Error querying beliefs: " ++ exn_str e |},
          st')) /\
  (forall e,
     isinstance_Exception e = true ->
     is_connected (self st) = false ->
     await_outcome env (awaits (world st)) = Some e ->
     exists st',
       query_beliefs query env st
       = (Return {| beliefs := []; br_success := false;
                    br_message := "Not connected to CSNePS server" |}, st')).
Proof.
  repeat apply conj; intros; open_state st; subst; settle_guard;
    try discriminate; repeat client_case;
    try (intros H; inversion H; subst; assumption);
    try (eexists; reflexivity).
Qed.

Lemma query_errors_reported_witness :
  exists st',
    query_beliefs demo_query (failing_at 1 boom) demo_state
    = (Return {| beliefs := []; br_success := false;
                 br_message := "Error querying beliefs: boom" |}, st').
Proof.
  apply (proj1 (proj2 (query_errors_reported demo_query (failing_at 1 boom)
                         demo_state)) boom); reflexivity.
Defined.

(** ** Retrieving justifications *)

(** X11.  [get_justification] reports errors the same way: no [Exception]
    leaves it; a round-trip error gives [success = False], the payload
    [{}] and the message [Error getting justification: ] followed by
    [str(e)]; a failed implicit [connect] gives the not-connected
    message. *)
Theorem justification_errors_reported
    (query : JustificationQuery) (env : Env) (st : State) :
  (forall e st', get_justification query env st = (Raise e, st') ->
                 isinstance_Exception e = false) /\
  (forall e,
     isinstance_Exception e = true ->
     (is_connected (self st) = false ->
      await_outcome env (awaits (world st)) = None) ->
     await_outcome env (dispatch_await st) = Some e ->
     exists st',
       get_justification query env st
       = (Return {| justification_tree := "{}"; jr_success := false;
                    jr_message := "Error getting justification: "
                                  ++ exn_str e |}, st')) /\
  (forall e,
     isinstance_Exception e = true ->
     is_connected (self st) = false ->
     await_outcome env (awaits (world st)) = Some e ->
     exists st',
       get_justification query env st
       = (Return {| justification_tree := "{}"; jr_success := false;
                    jr_message := "Not connected to CSNePS server" |}, st')).
Proof.
  repeat apply conj; intros; open_state st; subst; settle_guard;
    try discriminate; repeat client_case;
    try (intros H; inversion H; subst; assumption);
    try (eexists; reflexivity).
Qed.

Lemma justification_errors_reported_witness :
  exists st',
    get_justification demo_justification_query (failing_at 0 boom) demo_state
    = (Return {| justification_tree := "{}"; jr_success := false;
                 jr_message := "Not connected to CSNePS server" |}, st').
Proof.
  apply (proj2 (proj2 (justification_errors_reported demo_justification_query
                         (failing_at 0 boom) demo_state)) boom); reflexivity.
Defined.

(** X12.  The payload of every response [get_justification] returns is a
    JSON object, so [json.loads] never fails on it: the five entries of the
    justification on success, the empty object on failure. *)
Theorem justification_tree_is_object
    (query : JustificationQuery) (env : Env) (st : State) :
  completes (get_justification query env st)
    (fun r _ =>
       exists items,
         json_loads (justification_tree r) = Some (JDict items) /\
         (jr_success r = true -> map fst items
            = ["belief_id"; "rule_path"; "premises"; "confidence"; "depth"]) /\
         (jr_success r = false -> items = [])).
Proof.
  client_cases st; try reflexivity;
    try (exists []; repeat split; intros; try discriminate; reflexivity);
    (exists (justification query); split;
     [apply json_loads_justification
     | split; intros; [reflexivity | discriminate]]).
Qed.

(** ** What every operation does to the connection *)

(** X13.  [query_beliefs] and [get_justification] auto-connect like the
    submit methods: on a disconnected client each starts with exactly one
    implicit [connect], and when that [connect] returns [False] it returns
    its not-connected response (no beliefs, or the payload [{}]) in the
    state [connect] left, without any round trip. *)
Theorem query_auto_connect (env : Env) (st : State) :
  is_connected (self st) = false ->
  (forall query,
     connect_calls (trace (world (snd (query_beliefs query env st))))
     = S (connect_calls (trace (world st))) /\
     (forall st1,
        connect env st = (Return false, st1) ->
        query_beliefs query env st
        = (Return {| beliefs := []; br_success := false;
                     br_message := "Not connected to CSNePS server" |}, st1))) /\
  (forall query,
     connect_calls (trace (world (snd (get_justification query env st))))
     = S (connect_calls (trace (world st))) /\
     (forall st1,
        connect env st = (Return false, st1) ->
        get_justification query env st
        = (Return {| justification_tree := "{}"; jr_success := false;
                     jr_message := "Not connected to CSNePS server" |}, st1))).
Proof.
  intros Hc. split; intros query; (split; [| intros st1 Hfail]);
    open_state st; subst; repeat client_case; try count_connects;
    try match goal with
        | H : (_, _) = (Return false, _) |- _ =>
            inversion H; subst; reflexivity
        end.
Qed.

Lemma query_auto_connect_witness :
  connect_calls
    (trace (world (snd (query_beliefs demo_query (failing_at 0 boom)
                          demo_state))))
  = S (connect_calls (trace (world demo_state))) /\
  query_beliefs demo_query (failing_at 0 boom) demo_state
  = (Return {| beliefs := []; br_success := false;
               br_message := "Not connected to CSNePS server" |},
     snd (connect (failing_at 0 boom) demo_state)).
Proof.
  destruct (proj1 (query_auto_connect (failing_at 0 boom) demo_state eq_refl)
              demo_query) as (Hcount & Hfail).
  split; [exact Hcount | apply Hfail; reflexivity].
Defined.

(** X14.  On a connected client no operation calls [connect], and each
    awaits exactly one call, whether that call completes or raises: a
    failed round trip is reported, never retried. *)
Theorem operations_single_round_trip :
  each_submit single_round_trip /\
  (forall query, single_round_trip (query_beliefs query)) /\
  (forall query, single_round_trip (get_justification query)).
Proof.
  unfold each_submit, single_round_trip.
  repeat apply conj; intros x env st Hc; open_state st; subst;
    repeat client_case; split; count_connects.
Qed.

Lemma operations_single_round_trip_witness :
  connect_calls
    (trace (world (snd (send_loop_closure demo_loop_closure
                          (failing_at 1 boom) connected_state))))
  = connect_calls (trace (world connected_state)) /\
  awaits (world (snd (send_loop_closure demo_loop_closure
                        (failing_at 1 boom) connected_state)))
  = S (awaits (world connected_state)).
Proof.
  apply (proj1 (proj1 operations_single_round_trip) demo_loop_closure
           (failing_at 1 boom) connected_state).
  reflexivity.
Defined.

(** X15.  No method assigns anything but the [_connected] flag: host,
    port, address, channel and stubs are after every call what [__init__]
    made them. *)
Theorem operations_keep_endpoint :
  keeps_endpoint connect /\
  keeps_endpoint disconnect /\
  each_submit keeps_endpoint /\
  (forall query, keeps_endpoint (query_beliefs query)) /\
  (forall query, keeps_endpoint (get_justification query)).
Proof.
  unfold each_submit, keeps_endpoint, same_endpoint.
  repeat apply conj; intros; open_state st;
    try (destruct channel as [[] |]); repeat client_case; repeat split.
Qed.

(** ** Querying all concepts *)

(** What one query contributes to [query_all_concepts]. *)
Lemma query_beliefs_response (query : BeliefQuery) (env : Env) (st : State) :
  completes (query_beliefs query env st)
    (fun r _ =>
       (1 <= limit query -> Z.of_nat (length (beliefs r)) <= limit query) /\
       Forall (fun b => belief_type b = concept query) (beliefs r)).
Proof.
  client_cases st; try reflexivity;
    (split;
     [ intros Hn; try (simpl; lia); apply slice_to_length; exact Hn
     | try apply Forall_nil; apply slice_to_Forall; repeat constructor;
       cbn; congruence ]).
Qed.

(** X16.  [query_all_concepts] never lets an [Exception] out, and what it
    returns has exactly the three concepts as keys, in the order
    HighConfidenceLandmark, Hypothesis, Recommendation; under each key the
    beliefs are of that concept and, for [limit >= 1], at most [limit]. *)
Theorem query_all_concepts_shape (limit : Z) (env : Env) (st : State) :
  completes (query_all_concepts limit env st)
    (fun results _ =>
       map fst results = ["HighConfidenceLandmark"; "Hypothesis"; "Recommendation"] /\
       Forall (fun kr =>
                 Forall (fun b => belief_type b = fst kr) (beliefs (snd kr)) /\
                 (1 <= limit -> Z.of_nat (length (beliefs (snd kr))) <= limit))
              results).
Proof.
  unfold query_all_concepts, query_each.
  cbv beta iota delta [bind ret Monad_M].
  repeat match goal with
         | |- context [query_beliefs ?q env ?s] =>
             let H := fresh "H" in
             pose proof (query_beliefs_response q env s) as H;
             destruct (query_beliefs q env s) as [[? | ?] ?];
             cbn [completes] in H |- *; [| exact H]
         end.
  split; [reflexivity |].
  repeat constructor; cbn [fst snd beliefs]; tauto.
Qed.

(** X17.  When every awaited call completes, [query_all_concepts] succeeds
    for all three concepts, connects at most once (once on a disconnected
    client, for the first query; never on a connected one) and leaves the
    client connected. *)
Theorem query_all_concepts_connects_once (limit : Z) (env : Env) (st : State) :
  (forall n, await_outcome env n = None) ->
  exists r1 r2 r3 st',
    query_all_concepts limit env st
    = (Return [("HighConfidenceLandmark", r1); ("Hypothesis", r2);
               ("Recommendation", r3)], st') /\
    br_success r1 = true /\ br_success r2 = true /\ br_success r3 = true /\
    connect_calls (trace (world st'))
    = (connect_calls (trace (world st))
       + if is_connected (self st) then 0 else 1)%nat /\
    is_connected (self st') = true.
Proof.
  intros Hquiet. unfold query_all_concepts, query_each.
  open_state st.
  destruct connected;
    repeat (progress (unfold_client; rewrite ?Hquiet; cbn [concept];
                      repeat match goal with
                             | |- context [String.eqb ?a ?b] =>
                                 let v := eval vm_compute in (String.eqb a b) in
                                 change (String.eqb a b) with v
                             end));
    (do 4 eexists; split; [reflexivity |]);
    cbn [br_success self world trace _connected];
    repeat split; count_connects; lia.
Qed.

Lemma query_all_concepts_connects_once_witness :
  exists r1 r2 r3 st',
    query_all_concepts 3 quiet_env demo_state
    = (Return [("HighConfidenceLandmark", r1); ("Hypothesis", r2);
               ("Recommendation", r3)], st') /\
    br_success r1 = true /\ br_success r2 = true /\ br_success r3 = true /\
    connect_calls (trace (world st'))
    = (connect_calls (trace (world demo_state))
       + if is_connected (self demo_state) then 0 else 1)%nat /\
    is_connected (self st') = true.
Proof.
  apply (query_all_concepts_connects_once 3 quiet_env demo_state).
  reflexivity.
Defined.

(** ** Identifiers and what the backend does not look at *)

Lemma firstn_NoDup {A : Type} (l : list A) :
  NoDup l -> forall n, NoDup (firstn n l).
Proof.
  induction 1 as [| x l Hx Hl IH]; intros [| n]; simpl; try constructor.
  - intros Hin. apply Hx. revert Hin. clear.
    revert n. induction l as [| y l IHl]; intros [| n]; simpl; try tauto.
    intros [-> | Hin]; [now left | right; eapply IHl; exact Hin].
  - apply IH.
Qed.

Lemma slice_to_map {A B : Type} (f : A -> B) (l : list A) (n : Z) :
  map f (slice_to l n) = slice_to (map f l) n.
Proof.
  unfold slice_to. rewrite length_map. destruct (n <? 0); symmetry; apply firstn_map.
Qed.

Lemma slice_to_NoDup {A : Type} (l : list A) (n : Z) :
  NoDup l -> NoDup (slice_to l n).
Proof.
  intros H. unfold slice_to. destruct (n <? 0); apply firstn_NoDup; exact H.
Qed.

(** X18.  The beliefs of one response have pairwise different
    [belief_id]s. *)
Theorem query_beliefs_distinct_ids
    (query : BeliefQuery) (env : Env) (st : State) :
  completes (query_beliefs query env st)
    (fun r _ => NoDup (map belief_id (beliefs r))).
Proof.
  client_cases st; try reflexivity; try apply NoDup_nil;
    cbn [beliefs]; rewrite slice_to_map; apply slice_to_NoDup; cbn [map belief_id];
    repeat constructor; simpl; intuition discriminate.
Qed.

(** The payload of a successful [get_justification]. *)
Lemma get_justification_payload
    (query : JustificationQuery) (env : Env) (st : State) :
  completes (get_justification query env st)
    (fun r _ =>
       jr_success r = true ->
       justification_tree r
       = json_dumps (Some 2%nat) (JDict (justification query))).
Proof.
  client_cases st; try reflexivity; intros H; try discriminate H; reflexivity.
Qed.

(** X19.  A successful justification payload identifies the belief and
    nothing else: two successful calls, on any clients and with any
    [max_depth], return the same payload exactly when their [belief_id]s
    are the same. *)
Theorem justification_payload_identifies_belief
    (q1 q2 : JustificationQuery) (env1 env2 : Env) (st1 st2 : State)
    (r1 r2 : JustificationResponse) (st1' st2' : State) :
  get_justification q1 env1 st1 = (Return r1, st1') ->
  get_justification q2 env2 st2 = (Return r2, st2') ->
  jr_success r1 = true ->
  jr_success r2 = true ->
  (justification_tree r1 = justification_tree r2
   <-> jq_belief_id q1 = jq_belief_id q2).
Proof.
  intros Hrun1 Hrun2 Hok1 Hok2.
  pose proof (get_justification_payload q1 env1 st1) as H1.
  pose proof (get_justification_payload q2 env2 st2) as H2.
  rewrite Hrun1 in H1. rewrite Hrun2 in H2. cbn [completes] in H1, H2.
  rewrite (H1 Hok1), (H2 Hok2). split.
  - intros Heq. apply (f_equal json_loads) in Heq.
    rewrite !json_loads_justification in Heq.
    unfold justification in Heq. congruence.
  - intros Heq. unfold justification. rewrite Heq. reflexivity.
Qed.

Lemma justification_payload_identifies_belief_witness :
  justification_tree
    {| justification_tree :=
         json_dumps (Some 2%nat) (JDict (justification demo_justification_query));
       jr_success := true;
       jr_message := "Justification retrieved successfully" |}
  = justification_tree
      {| justification_tree :=
           json_dumps (Some 2%nat)
             (JDict (justification shallow_justification_query));
         jr_success := true;
         jr_message := "Justification retrieved successfully" |}
  <-> jq_belief_id demo_justification_query
      = jq_belief_id shallow_justification_query.
Proof.
  apply (justification_payload_identifies_belief
           demo_justification_query shallow_justification_query
           quiet_env quiet_env demo_state demo_state _ _
           (snd (get_justification demo_justification_query quiet_env
                   demo_state))
           (snd (get_justification shallow_justification_query quiet_env
                   demo_state)));
    reflexivity.
Defined.

(** X20.  The submit methods do not look into the observation: what a
    method returns and what it does to the client is the same for any two
    observations of its class; only the text of one log record differs. *)
Theorem submit_ignores_observation :
  (forall o1 o2 env st,
     fst (send_loop_closure o1 env st) = fst (send_loop_closure o2 env st) /\
     self (snd (send_loop_closure o1 env st))
     = self (snd (send_loop_closure o2 env st))) /\
  (forall o1 o2 env st,
     fst (send_appearance_match o1 env st)
     = fst (send_appearance_match o2 env st) /\
     self (snd (send_appearance_match o1 env st))
     = self (snd (send_appearance_match o2 env st))) /\
  (forall o1 o2 env st,
     fst (send_gnc_event o1 env st) = fst (send_gnc_event o2 env st) /\
     self (snd (send_gnc_event o1 env st))
     = self (snd (send_gnc_event o2 env st))) /\
  (forall o1 o2 env st,
     fst (send_medical_finding o1 env st)
     = fst (send_medical_finding o2 env st) /\
     self (snd (send_medical_finding o1 env st))
     = self (snd (send_medical_finding o2 env st))).
Proof.
  repeat apply conj; intros o1 o2 env st; open_state st;
    repeat client_case; split; reflexivity.
Qed.
